(** * CosmoVision trading bot: the data-refresh and persistence pipeline

    A shallow embedding of [src/database.py], [src/blockchain.py] and
    [src/scraper.py].  The SQLite table [coins] is a list of rows kept in
    rowid order; the Python functions are functions on that store; the
    network, the clock and the database faults met by one refresh pass are
    read from an explicit world.
    The startup and job sequence of [src/main.py] and the number format of
    [src/telegram_bot.py] are modelled beside them.

    Text is [string]: one [ascii] stands for one character.  INTEGER values
    are [Z] (the 64-bit bound of SQLite is not part of the model: binding a
    larger Python int raises, which the write-fault oracle of the metrics
    pass covers).  REAL values are exact rationals [Q]: no statement below
    depends on the rounding of a price to binary64. *)

From Stdlib Require Import List String Ascii ZArith QArith Bool Lia Permutation.
From Stdlib Require Import Zpow_facts.
Import ListNotations.

Local Open Scope string_scope.
Local Open Scope Z_scope.

(** ** Small Python/SQL helpers on text *)

Module Text.

(** ASCII case folding, as SQLite's LIKE applies it (A-Z only). *)
Definition to_lower (c : ascii) : ascii :=
  let n := N_of_ascii c in
  if ((65 <=? n) && (n <=? 90))%N then ascii_of_N (n + 32) else c.

Fixpoint lower (s : string) : string :=
  match s with
  | EmptyString => EmptyString
  | String c s' => String (to_lower c) (lower s')
  end.

(** [str.isspace] on the ASCII range: tab, LF, VT, FF, CR, FS, GS, RS, US
    and space. *)
Definition is_space (c : ascii) : bool :=
  let n := N_of_ascii c in
  (((9 <=? n) && (n <=? 13)) || ((28 <=? n) && (n <=? 32)))%N.

Definition is_digit (c : ascii) : bool :=
  let n := N_of_ascii c in ((48 <=? n) && (n <=? 57))%N.

Definition digit_value (c : ascii) : Z := Z.of_N (N_of_ascii c) - 48.

Fixpoint lstrip (s : string) : string :=
  match s with
  | EmptyString => EmptyString
  | String c s' => if is_space c then lstrip s' else s
  end.

Fixpoint rev_string (s : string) : string :=
  match s with
  | EmptyString => EmptyString
  | String c s' => rev_string s' ++ String c EmptyString
  end.

(** [str.strip()] *)
Definition strip (s : string) : string :=
  rev_string (lstrip (rev_string (lstrip s))).

(** [s.replace(c, '')] for a one-character [c]. *)
Fixpoint remove_char (c : ascii) (s : string) : string :=
  match s with
  | EmptyString => EmptyString
  | String d s' =>
      if Ascii.eqb d c then remove_char c s' else String d (remove_char c s')
  end.

Fixpoint count_char (c : ascii) (s : string) : nat :=
  match s with
  | EmptyString => O
  | String d s' => ((if Ascii.eqb d c then 1 else 0) + count_char c s')%nat
  end.

Fixpoint all_chars (p : ascii -> bool) (s : string) : bool :=
  match s with
  | EmptyString => true
  | String c s' => p c && all_chars p s'
  end.

(** [str.isdigit()]: non-empty and digits only. *)
Definition isdigit (s : string) : bool :=
  match s with
  | EmptyString => false
  | _ => all_chars is_digit s
  end.

(** [s.startswith(p)] *)
Definition startswith (p s : string) : bool := String.prefix p s.

(** The value of a run of decimal digits, most significant first. *)
Fixpoint digits_value (acc : Z) (s : string) : Z :=
  match s with
  | EmptyString => acc
  | String c s' => digits_value (10 * acc + digit_value c) s'
  end.




End Text.

(** ** SQLite's LIKE operator (default settings: no ESCAPE, ASCII case
    folding) *)

Module Sqlite.

(** [like p t] is [t LIKE p]: [%] matches any run of characters, [_]
    exactly one character, any other character itself up to ASCII case. *)
Fixpoint like (p : string) : string -> bool :=
  match p with
  | EmptyString =>
      fun t => match t with EmptyString => true | String _ _ => false end
  | String c p' =>
      if Ascii.eqb c "%" then
        fix star (t : string) : bool :=
          like p' t ||
          match t with
          | EmptyString => false
          | String _ t' => star t'
          end
      else if Ascii.eqb c "_" then
        fun t =>
          match t with
          | EmptyString => false
          | String _ t' => like p' t'
          end
      else
        fun t =>
          match t with
          | EmptyString => false
          | String d t' =>
              Ascii.eqb (Text.to_lower c) (Text.to_lower d) && like p' t'
          end
  end.

Definition is_wildcard (c : ascii) : bool :=
  Ascii.eqb c "%" || Ascii.eqb c "_".


End Sqlite.

(** ** The store: [src/database.py] *)

(** A row of table [coins], with the columns of [initialize_database]. *)
Module Row.
Record t : Type := make {
  id : Z;                       (* INTEGER PRIMARY KEY AUTOINCREMENT *)
  name : string;                (* TEXT NOT NULL *)
  symbol : string;              (* TEXT NOT NULL *)
  contract : string;            (* TEXT UNIQUE NOT NULL *)
  price : option Q;             (* REAL *)
  holders : option Z;           (* INTEGER *)
  transfers_24h : option Z;     (* INTEGER *)
  last_updated : option Z       (* INTEGER *)
}.
End Row.

(** A listing record, the dict built by the scraper and read by
    [update_coin_data]. *)
Module Coin.
Record t : Type := make {
  name : string;
  symbol : string;
  contract : string;
  price : Q;
  last_updated : Z
}.
End Coin.

(** The dict returned by [search_coin]: the seven selected columns. *)
Module CoinRecord.
Record t : Type := make {
  name : string;
  symbol : string;
  contract : string;
  price : option Q;
  holders : option Z;
  transfers_24h : option Z;
  last_updated : option Z
}.
End CoinRecord.

Module Database.

(** The database file: the rows of [coins] in rowid order and the
    AUTOINCREMENT counter that SQLite keeps for the table in
    [sqlite_sequence]. *)
Record Store : Type := mkStore {
  rows : list Row.t;
  seq : Z
}.

(** What SQL leaves to the engine.  A SELECT without ORDER BY returns rows
    in an order of the engine's choosing (a table scan runs in rowid
    order, a scan of the index that backs UNIQUE in key order), and a
    conflicting INSERT may or may not use up the AUTOINCREMENT value
    drawn for it. *)
Record Engine : Type := mkEngine {
  burns_rowid_on_conflict : bool;
  scan_contracts : list Row.t -> list Row.t;
  scan_contracts_perm : forall l, Permutation (scan_contracts l) l;
  scan_search : list Row.t -> list Row.t;
  scan_search_perm : forall l, Permutation (scan_search l) l
}.

(** The engine that always scans the table in rowid order. *)
Definition rowid_engine : Engine :=
  {| burns_rowid_on_conflict := true;
     scan_contracts := fun l => l;
     scan_contracts_perm := fun l => Permutation_refl l;
     scan_search := fun l => l;
     scan_search_perm := fun l => Permutation_refl l |}.

Definition empty : Store := {| rows := []; seq := 0 |}.

(** [initialize_database]: CREATE TABLE IF NOT EXISTS, on a file that has
    the table ([Some]) or not ([None]). *)
Definition initialize_database (db : option Store) : Store :=
  match db with
  | Some s => s
  | None => empty
  end.

Definition has_contract (c : string) (r : Row.t) : bool :=
  String.eqb (Row.contract r) c.

Definition contracts (s : Store) : list string :=
  map Row.contract (rows s).

(** The UNIQUE constraint on [contract]. *)
Definition unique_contracts (s : Store) : Prop := NoDup (contracts s).

Definition max_id (l : list Row.t) : Z :=
  fold_right (fun r m => Z.max (Row.id r) m) 0 l.

(** The rowid an AUTOINCREMENT table draws for an INSERT without [id]. *)
Definition next_rowid (s : Store) : Z :=
  Z.max (seq s) (max_id (rows s)) + 1.

(** DO UPDATE SET name, symbol, price, last_updated = excluded.* *)
Definition set_listing (coin : Coin.t) (r : Row.t) : Row.t :=
  {| Row.id := Row.id r;
     Row.name := Coin.name coin;
     Row.symbol := Coin.symbol coin;
     Row.contract := Row.contract r;
     Row.price := Some (Coin.price coin);
     Row.holders := Row.holders r;
     Row.transfers_24h := Row.transfers_24h r;
     Row.last_updated := Some (Coin.last_updated coin) |}.

(** INSERT INTO coins (name, symbol, contract, price, last_updated) *)
Definition inserted_row (rowid : Z) (coin : Coin.t) : Row.t :=
  {| Row.id := rowid;
     Row.name := Coin.name coin;
     Row.symbol := Coin.symbol coin;
     Row.contract := Coin.contract coin;
     Row.price := Some (Coin.price coin);
     Row.holders := None;
     Row.transfers_24h := None;
     Row.last_updated := Some (Coin.last_updated coin) |}.

(** One INSERT ... ON CONFLICT(contract) DO UPDATE statement. *)
Definition execute_upsert (E : Engine) (s : Store) (coin : Coin.t) : Store :=
  let rowid := next_rowid s in
  if existsb (has_contract (Coin.contract coin)) (rows s) then
    {| rows := map (fun r => if has_contract (Coin.contract coin) r
                             then set_listing coin r else r) (rows s);
       seq := if burns_rowid_on_conflict E then rowid else seq s |}
  else
    {| rows := rows s ++ [inserted_row rowid coin];
       seq := rowid |}.

(** [update_coin_data(coins)]: one statement per record, in order. *)
Definition update_coin_data (E : Engine) (s : Store) (coins : list Coin.t)
  : Store :=
  fold_left (execute_upsert E) coins s.

(** UPDATE coins SET holders, transfers_24h, last_updated WHERE contract *)
Definition set_metrics (h t ts : Z) (r : Row.t) : Row.t :=
  {| Row.id := Row.id r;
     Row.name := Row.name r;
     Row.symbol := Row.symbol r;
     Row.contract := Row.contract r;
     Row.price := Row.price r;
     Row.holders := Some h;
     Row.transfers_24h := Some t;
     Row.last_updated := Some ts |}.

(** [update_blockchain_metrics(contract, holders, transfers_24h, timestamp)] *)
Definition update_blockchain_metrics (s : Store) (contract : string)
    (holders transfers_24h timestamp : Z) : Store :=
  {| rows := map (fun r => if has_contract contract r
                           then set_metrics holders transfers_24h timestamp r
                           else r) (rows s);
     seq := seq s |}.

(** [get_all_contracts()]: SELECT contract FROM coins *)
Definition get_all_contracts (E : Engine) (s : Store) : list string :=
  map Row.contract (scan_contracts E (rows s)).

Definition select_columns (r : Row.t) : CoinRecord.t :=
  {| CoinRecord.name := Row.name r;
     CoinRecord.symbol := Row.symbol r;
     CoinRecord.contract := Row.contract r;
     CoinRecord.price := Row.price r;
     CoinRecord.holders := Row.holders r;
     CoinRecord.transfers_24h := Row.transfers_24h r;
     CoinRecord.last_updated := Row.last_updated r |}.

(** WHERE name LIKE '%query%' OR symbol LIKE '%query%' *)
Definition like_pattern (query : string) : string :=
  "%" ++ query ++ "%".

Definition where_clause (query : string) (r : Row.t) : bool :=
  Sqlite.like (like_pattern query) (Row.name r)
  || Sqlite.like (like_pattern query) (Row.symbol r).

(** [search_coin(query)]: [fetchone()] takes the first row of the result
    set, [None] when the set is empty. *)
Definition search_coin (E : Engine) (s : Store) (query : string)
  : option CoinRecord.t :=
  match filter (where_clause query) (scan_search E (rows s)) with
  | [] => None
  | r :: _ => Some (select_columns r)
  end.


(** The last record of a batch for a contract: the one whose values a row
    keeps once the batch is written. *)
Definition last_listing (coins : list Coin.t) (c : string) : option Coin.t :=
  find (fun coin => String.eqb (Coin.contract coin) c) (rev coins).

Definition refresh (coins : list Coin.t) (r : Row.t) : Row.t :=
  match last_listing coins (Row.contract r) with
  | Some coin => set_listing coin r
  | None => r
  end.

(** A row that a batch inserted: its contract was not in the store, it is
    listed in the batch, and its two metrics are NULL. *)
Definition newly_listed (s : Store) (coins : list Coin.t) (r : Row.t)
  : Prop :=
  Row.holders r = None
  /\ Row.transfers_24h r = None
  /\ ~ In (Row.contract r) (contracts s)
  /\ In (Row.contract r) (map Coin.contract coins).

(** What the metrics phase may change between a row and its successor:
    nothing of the listing columns, and nothing at all in a row of
    another contract. *)
Definition metrics_frame (c : string) (before after : Row.t) : Prop :=
  Row.id after = Row.id before
  /\ Row.name after = Row.name before
  /\ Row.symbol after = Row.symbol before
  /\ Row.contract after = Row.contract before
  /\ Row.price after = Row.price before
  /\ (Row.contract before <> c -> after = before).

(** What the listing phase may change between a row and its successor
    under a batch: not the two metrics, and [last_updated] only by the
    timestamp of the last record listed for the contract. *)
Definition listing_frame (coins : list Coin.t) (before after : Row.t)
  : Prop :=
  Row.id after = Row.id before
  /\ Row.contract after = Row.contract before
  /\ Row.holders after = Row.holders before
  /\ Row.transfers_24h after = Row.transfers_24h before
  /\ Row.last_updated after =
       match last_listing coins (Row.contract before) with
       | Some coin => Some (Coin.last_updated coin)
       | None => Row.last_updated before
       end.

End Database.

(** ** Python values and exceptions *)

Module Py.

(** A Python expression that may raise: [None] is "an exception was
    raised". *)
Definition exc (A : Type) : Type := option A.

Definition bind {A B : Type} (m : exc A) (k : A -> exc B) : exc B :=
  match m with
  | Some a => k a
  | None => None
  end.

(** [try: return m  except Exception: return d] *)
Definition try_except {A : Type} (m : exc A) (d : A) : A :=
  match m with
  | Some a => a
  | None => d
  end.

(** A decoded JSON document.  An object is the decoded dict, keys looked
    up at their first occurrence; numbers with a fraction are left out. *)
#[local] Unset Elimination Schemes.
Inductive Json : Type :=
| JNull
| JBool (b : bool)
| JInt (z : Z)
| JStr (s : string)
| JArr (items : list Json)
| JObj (members : list (string * Json)).
#[local] Set Elimination Schemes.

Fixpoint assoc (k : string) (m : list (string * Json)) : option Json :=
  match m with
  | [] => None
  | (k', v) :: m' => if String.eqb k' k then Some v else assoc k m'
  end.

(** [v[k]] for a string key: KeyError on a dict without the key,
    TypeError on anything that is not a dict. *)
Definition getitem (v : Json) (k : string) : exc Json :=
  match v with
  | JObj m => assoc k m
  | _ => None
  end.

(** [k in v] for a dict [v]. *)
Definition contains (v : Json) (k : string) : bool :=
  match v with
  | JObj m => match assoc k m with Some _ => true | None => false end
  | _ => false
  end.

(** [v == s] for a string literal [s]. *)
Definition eq_str (v : Json) (s : string) : bool :=
  match v with
  | JStr s' => String.eqb s' s
  | _ => false
  end.

(** Digits with single underscores between them, as [int(str)] reads
    them. *)
Fixpoint int_digits (after_digit : bool) (acc : Z) (s : string) : exc Z :=
  match s with
  | EmptyString => if after_digit then Some acc else None
  | String c s' =>
      if Text.is_digit c then
        int_digits true (10 * acc + Text.digit_value c) s'
      else if Ascii.eqb c "_" then
        if after_digit then int_digits false acc s' else None
      else None
  end.

Definition int_of_str (s : string) : exc Z :=
  match Text.strip s with
  | String "+" body => int_digits false 0 body
  | String "-" body => option_map Z.opp (int_digits false 0 body)
  | body => int_digits false 0 body
  end.

(** [int(v)] *)
Definition int (v : Json) : exc Z :=
  match v with
  | JInt z => Some z
  | JBool b => Some (if b then 1 else 0)
  | JStr s => int_of_str s
  | JNull | JArr _ | JObj _ => None
  end.

Definition keys (m : list (string * Json)) : list string :=
  nodup string_dec (map fst m).

(** [len(v)] *)
Definition len (v : Json) : exc Z :=
  match v with
  | JStr s => Some (Z.of_nat (String.length s))
  | JArr l => Some (Z.of_nat (List.length l))
  | JObj m => Some (Z.of_nat (List.length (keys m)))
  | JNull | JBool _ | JInt _ => None
  end.

(** [for x in v]: the items of a list, the characters of a string, the
    keys of a dict. *)
Definition iter (v : Json) : exc (list Json) :=
  match v with
  | JArr l => Some l
  | JStr s => Some (map (fun c => JStr (String c EmptyString))
                        (list_ascii_of_string s))
  | JObj m => Some (map JStr (keys m))
  | JNull | JBool _ | JInt _ => None
  end.

End Py.

Notation "x <- m ;; k" := (Py.bind m (fun x => k))
  (at level 61, m at next level, right associativity).

(** ** The metrics phase: [src/blockchain.py] *)

Module Blockchain.

Import Database.

(** What [requests.get(...)] followed by [response.json()] gives. *)
Inductive Response : Type :=
| RequestRaises          (* connection error, or no answer within 10 s *)
| JsonRaises             (* the body is not JSON *)
| Body (data : Py.Json).

Definition decoded (r : Response) : Py.exc Py.Json :=
  match r with
  | Body data => Some data
  | RequestRaises | JsonRaises => None
  end.

(** The body of the [try] of [fetch_holders_count]. *)
Definition holders_count_try (r : Response) : Py.exc Z :=
  data <- decoded r ;;
  status <- Py.getitem data "status" ;;
  if Py.eq_str status "1" then
    if Py.contains data "countTokenHolders" then
      count <- Py.getitem data "countTokenHolders" ;; Py.int count
    else
      result <- Py.getitem data "result" ;; Py.len result
  else Some 0.

(** [fetch_holders_count(contract_address)], on the answer the network
    gives for that contract. *)
Definition fetch_holders_count (r : Response) : Z :=
  Py.try_except (holders_count_try r) 0.

(** [sum(1 for tx in result if int(tx['timeStamp']) > timestamp_24h_ago)] *)
Fixpoint count_recent (timestamp_24h_ago : Z) (txs : list Py.Json)
  : Py.exc Z :=
  match txs with
  | [] => Some 0
  | tx :: rest =>
      stamp <- Py.getitem tx "timeStamp" ;;
      ts <- Py.int stamp ;;
      n <- count_recent timestamp_24h_ago rest ;;
      Some (if ts >? timestamp_24h_ago then 1 + n else n)
  end.

Definition transfers_24h_try (r : Response) (now : Z) : Py.exc Z :=
  let timestamp_24h_ago := now - 86400 in
  data <- decoded r ;;
  status <- Py.getitem data "status" ;;
  if Py.eq_str status "1" then
    result <- Py.getitem data "result" ;;
    txs <- Py.iter result ;;
    count_recent timestamp_24h_ago txs
  else Some 0.

(** [fetch_transfers_24h(contract_address)], on the network's answer and
    the reading of [int(time.time())] taken at its start. *)
Definition fetch_transfers_24h (r : Response) (now : Z) : Z :=
  Py.try_except (transfers_24h_try r now) 0.

(** What one metrics pass meets outside the program, per contract (a pass
    visits a contract once): the two answers of the explorer, the two
    clock readings, and whether the database write raises. *)
Record World : Type := mkWorld {
  holders_response : string -> Response;
  transfers_response : string -> Response;
  clock_at_transfers : string -> Z;
  clock_at_write : string -> Z;
  write_raises : string -> bool
}.

Definition REQUEST_DELAY_ms : Z := 250.

(** What a pass does to the outside, in order. *)
Inductive Event : Type :=
| HoldersQuery (contract : string)
| TransfersQuery (contract : string)
| Sleep (ms : Z)
| MetricsWrite (contract : string) (holders transfers timestamp : Z)
| ErrorLogged (contract : string).

Definition holders_of (w : World) (c : string) : Z :=
  fetch_holders_count (holders_response w c).

Definition transfers_of (w : World) (c : string) : Z :=
  fetch_transfers_24h (transfers_response w c) (clock_at_transfers w c).

(** The body of the [for] loop: [try: ... except Exception: continue].
    The two fetches catch what they raise themselves; the statement of the
    body that can raise is the database write. *)
Definition process_contract (w : World) (s : Store) (c : string)
  : Store * list Event :=
  let holders := fetch_holders_count (holders_response w c) in
  let transfers :=
    fetch_transfers_24h (transfers_response w c) (clock_at_transfers w c) in
  let current_timestamp := clock_at_write w c in
  let calls :=
    [ HoldersQuery c; Sleep REQUEST_DELAY_ms;
      TransfersQuery c; Sleep REQUEST_DELAY_ms;
      MetricsWrite c holders transfers current_timestamp ] in
  if write_raises w c then
    (s, (calls ++ [ErrorLogged c])%list)
  else
    (update_blockchain_metrics s c holders transfers current_timestamp, calls).

(** What an iteration does to the outside; it does not depend on the
    store. *)
Definition iteration_events (w : World) (c : string) : list Event :=
  snd (process_contract w empty c).

Fixpoint for_each_contract (w : World) (contracts : list string) (s : Store)
  : Store * list Event :=
  match contracts with
  | [] => (s, [])
  | c :: rest =>
      let (s1, events) := process_contract w s c in
      let (s2, later) := for_each_contract w rest s1 in
      (s2, (events ++ later)%list)
  end.

(** [update_blockchain_data()] *)
Definition update_blockchain_data (E : Engine) (w : World) (s : Store)
  : Store * list Event :=
  match get_all_contracts E s with
  | [] => (s, [])
  | contracts => for_each_contract w contracts s
  end.

(** The row a pass leaves for a row it found: the three metrics columns
    written with what the world gave for its contract, unless the write
    for that contract raised. *)
Definition after_pass (w : World) (r : Row.t) : Row.t :=
  let c := Row.contract r in
  if write_raises w c then r
  else set_metrics (holders_of w c) (transfers_of w c) (clock_at_write w c) r.

Definition listed_in (l : list string) (r : Row.t) : bool :=
  existsb (String.eqb (Row.contract r)) l.

(** The contracts a pass visited, in the order of its holder queries. *)
Definition visited (events : list Event) : list string :=
  flat_map (fun e => match e with HoldersQuery c => [c] | _ => [] end) events.

(** The holder-count failures of the specification.  The call raises (a
    timeout and a body that is not JSON included): the [try] body does not
    return. *)
Definition raises_in_try (r : Response) : Prop :=
  holders_count_try r = None.

(** The API answers, with a status other than 1. *)
Definition reports_failure (r : Response) : Prop :=
  match r with
  | Body data =>
      match Py.getitem data "status" with
      | Some status => Py.eq_str status "1" = false
      | None => False
      end
  | RequestRaises | JsonRaises => False
  end.

Definition holders_failure (r : Response) : Prop :=
  raises_in_try r \/ reports_failure r.

End Blockchain.

(** ** The listing phase: [src/scraper.py] *)

Module Scraper.

Import Database.

(** An [<a>] tag: its [href] attribute, if it has one, and its text. *)
Record Anchor : Type := mkAnchor {
  href : option string;
  anchor_text : string
}.

(** A candidate element of the page, as the [find] calls of the loop see
    it: the text of each tag looked for ([None] when [find] returns
    [None]), the link to bscscan.com, and the cell of class [contract]
    with its first link. *)
Record Element : Type := mkElement {
  span_coin_name : option string;
  td_name : option string;
  span_coin_symbol : option string;
  td_symbol : option string;
  bscscan_link : option Anchor;
  td_contract : option (option Anchor);
  span_coin_price : option string;
  td_price : option string;
  has_link : bool;               (* e.find('a') *)
  mentions_contract : bool       (* 'contract' in str(e).lower() *)
}.

(** The three selections [scrape_grafun] tries on the parsed page. *)
Record Soup : Type := mkSoup {
  coin_cards : list Element;     (* find_all('div', class_='coin-card') *)
  coin_rows : list Element;      (* find_all('tr', class_='coin-row') *)
  table_rows : list Element      (* find_all('tr') *)
}.

(** The outcome of fetching and parsing the listing page. *)
Inductive Fetched : Type :=
| RequestException       (* no answer, a timeout, or an HTTP error status *)
| UnexpectedException    (* anything else raised before the loop *)
| Parsed (soup : Soup).

(** [a or b] on the results of two [find] calls (a tag is always true). *)
Definition or_else {A : Type} (a b : option A) : option A :=
  match a with
  | Some _ => a
  | None => b
  end.

Definition zero_address : string :=
  "0x0000000000000000000000000000000000000000".

Fixpoint has_slash (s : string) : bool :=
  match s with
  | EmptyString => false
  | String c s' => Ascii.eqb c "/" || has_slash s'
  end.

(** [href.split('/')[-1] if '/' in href else href] *)
Fixpoint last_segment (s : string) : string :=
  match s with
  | EmptyString => EmptyString
  | String c s' =>
      if Ascii.eqb c "/" then last_segment s'
      else if has_slash s' then last_segment s' else s
  end.

(** The element the contract is read from.  The second lookup calls
    [.find('a')] on the cell of class [contract]: with no such cell that
    is a call on [None], which raises. *)
Definition contract_element (e : Element) : Py.exc (option Anchor) :=
  match bscscan_link e with
  | Some a => Some (Some a)
  | None =>
      match td_contract e with
      | Some cell_link => Some cell_link
      | None => None
      end
  end.

Definition contract_of (found : option Anchor) : string :=
  match found with
  | Some a =>
      match href a with
      | Some h => last_segment h
      | None => Text.strip (anchor_text a)
      end
  | None => zero_address
  end.

Fixpoint digits_after_dot (s : string) : nat :=
  match s with
  | EmptyString => O
  | String c s' =>
      if Ascii.eqb c "." then String.length s' else digits_after_dot s'
  end.

(** [float(s)] on a text of digits and dots with at least one digit:
    ValueError when there is more than one dot. *)
Definition float_of_decimal (s : string) : Py.exc Q :=
  if (Text.count_char "." s <=? 1)%nat then
    Some (Qmake (Text.digits_value 0 (Text.remove_char "." s))
                (Z.to_pos (10 ^ Z.of_nat (digits_after_dot s))))
  else None.

Definition price_of (found : option string) : Py.exc Q :=
  match found with
  | Some text =>
      let price_text :=
        Text.remove_char "," (Text.remove_char "$" (Text.strip text)) in
      match price_text with
      | EmptyString => Some 0%Q
      | _ =>
          if Text.isdigit (Text.remove_char "." price_text)
          then float_of_decimal price_text
          else Some 0%Q
      end
  | None => Some 0%Q
  end.

Definition text_or (found : option string) (default : string) : string :=
  match found with
  | Some text => Text.strip text
  | None => default
  end.

(** The body of the inner [try]: [None] when it raises, [Some None] when
    the contract does not start with 0x, [Some (Some coin)] when a record
    is appended. *)
Definition process_element (current_timestamp : Z) (e : Element)
  : Py.exc (option Coin.t) :=
  let name := text_or (or_else (span_coin_name e) (td_name e)) "Unknown" in
  let symbol := text_or (or_else (span_coin_symbol e) (td_symbol e)) "UNK" in
  found <- contract_element e ;;
  let contract := contract_of found in
  price <- price_of (or_else (span_coin_price e) (td_price e)) ;;
  if Text.startswith "0x" contract then
    Some (Some {| Coin.name := name;
                  Coin.symbol := symbol;
                  Coin.contract := contract;
                  Coin.price := price;
                  Coin.last_updated := current_timestamp |})
  else Some None.

(** [except Exception: continue] around the body: a raising element adds
    nothing. *)
Definition appended (current_timestamp : Z) (e : Element) : list Coin.t :=
  match process_element current_timestamp e with
  | Some (Some coin) => [coin]
  | Some None | None => []
  end.

Definition select_elements (soup : Soup) : list Element :=
  match coin_cards soup with
  | _ :: _ => coin_cards soup
  | [] =>
      match coin_rows soup with
      | _ :: _ => coin_rows soup
      | [] => filter (fun e => has_link e && mentions_contract e)
                     (table_rows soup)
      end
  end.

(** [scrape_grafun()], on the outcome of the page fetch and the reading
    of [int(time.time())]. *)
Definition scrape_grafun (page : Fetched) (now : Z) : list Coin.t :=
  match page with
  | RequestException => []
  | UnexpectedException => []
  | Parsed soup =>
      match select_elements soup with
      | [] => []
      | coin_elements => flat_map (appended now) coin_elements
      end
  end.

(** [run_scraper()] *)
Definition run_scraper (E : Engine) (page : Fetched) (now : Z) (s : Store)
  : Store :=
  let coins := scrape_grafun page now in
  match coins with
  | [] => s
  | _ :: _ => update_coin_data E s coins
  end.

End Scraper.

(** ** Answers of the explorer *)

Module Answer.

Import Blockchain.

(** [int(tx['timeStamp'])] *)
Definition stamp_of (tx : Py.Json) : Py.exc Z :=
  stamp <- Py.getitem tx "timeStamp" ;; Py.int stamp.

(** The answer carries status 1. *)
Definition status_ok (data : Py.Json) : Prop :=
  exists status,
    Py.getitem data "status" = Some status /\ Py.eq_str status "1" = true.

(** The time stamps that lie in the last 24 hours before [now]. *)
Definition recent (now : Z) (stamps : list Z) : list Z :=
  filter (fun ts => ts >? now - 86400) stamps.

End Answer.

(** ** What a pass does to the explorer: rate limiting *)

Module Trace.

Import Blockchain.

Definition is_query (e : Event) : bool :=
  match e with
  | HoldersQuery _ | TransfersQuery _ => true
  | Sleep _ | MetricsWrite _ _ _ _ | ErrorLogged _ => false
  end.

(** Every query of the explorer is directly followed by a sleep of
    [REQUEST_DELAY]. *)
Fixpoint rate_limited (events : list Event) : bool :=
  match events with
  | [] => true
  | e :: rest =>
      (if is_query e then
         match rest with
         | Sleep ms :: _ => ms =? REQUEST_DELAY_ms
         | _ => false
         end
       else true)
      && rate_limited rest
  end.

Definition queries (events : list Event) : nat :=
  List.length (filter is_query events).

(** The time a pass spends in [time.sleep], in milliseconds. *)
Fixpoint slept_ms (events : list Event) : Z :=
  match events with
  | [] => 0
  | Sleep ms :: rest => ms + slept_ms rest
  | _ :: rest => slept_ms rest
  end.

(** The contracts the pass called [update_blockchain_metrics] for. *)
Definition written (events : list Event) : list string :=
  flat_map (fun e => match e with MetricsWrite c _ _ _ => [c] | _ => [] end)
           events.

End Trace.

(** ** The bot's number format: [src/telegram_bot.py] *)

Module Bot.

Definition digit (d : N) : ascii := ascii_of_N (48 + d).

(** A group of exactly three digits, zeros kept. *)
Definition three_digits (n : N) : string :=
  String (digit (n / 100))
    (String (digit ((n / 10) mod 10))
       (String (digit (n mod 10)) EmptyString)).

(** The leading group: a number below 1000 without leading zeros. *)
Definition leading_digits (n : N) : string :=
  if (n <? 10)%N then String (digit n) EmptyString
  else if (n <? 100)%N then
    String (digit (n / 10)) (String (digit (n mod 10)) EmptyString)
  else three_digits n.

(** The decimal digits of [n] in groups of three from the right, with a
    comma between groups.  [fuel] bounds the number of groups. *)
Fixpoint grouped (fuel : nat) (n : N) : string :=
  match fuel with
  | O => leading_digits n
  | S fuel' =>
      if (n <? 1000)%N then leading_digits n
      else grouped fuel' (n / 1000) ++ "," ++ three_digits (n mod 1000)
  end.

Definition no_space (s : string) : Prop :=
  Text.all_chars (fun c => negb (Text.is_space c)) s = true.

Definition digits_only (s : string) : Prop :=
  Text.all_chars Text.is_digit s = true.

(** A run of groups, each a comma and three digits. *)
Fixpoint comma_groups (s : string) : bool :=
  match s with
  | EmptyString => true
  | String sep (String a (String b (String c rest))) =>
      Ascii.eqb sep ","
      && Text.is_digit a && Text.is_digit b && Text.is_digit c
      && comma_groups rest
  | _ => false
  end.

(** [f"{num:,}"] for an int. *)
Definition format_int (num : Z) : string :=
  let body := grouped (N.size_nat (Z.abs_N num)) (Z.abs_N num) in
  if num <? 0 then String "-" body else body.

(** [format_number(num)] *)
Definition format_number (num : option Z) : string :=
  match num with
  | None => "Unknown"
  | Some n => format_int n
  end.

End Bot.

(** ** The scheduler: [src/main.py] *)

Module Main.

Import Database.

(** One run of a scheduled job, with what it meets outside: the page and
    clock of a listing refresh, or the world of a metrics pass. *)
Inductive Job : Type :=
| ScrapeJob (page : Scraper.Fetched) (now : Z)
| MetricsJob (w : Blockchain.World).

Definition run_job (E : Engine) (s : Store) (j : Job) : Store :=
  match j with
  | ScrapeJob page now => Scraper.run_scraper E page now s
  | MetricsJob w => fst (Blockchain.update_blockchain_data E w s)
  end.

(** "Running initial data collection": [run_scraper()] and then
    [update_blockchain_data()]. *)
Definition initial_collection (E : Engine) (page : Scraper.Fetched) (now : Z)
    (w : Blockchain.World) (s : Store) : Store :=
  fst (Blockchain.update_blockchain_data E w
         (Scraper.run_scraper E page now s)).

(** [scheduler_thread()]: the initial collection, then the jobs
    [schedule.run_pending()] starts, one at a time.  The store after any
    finite number of them; which job is due when is left to the list. *)
Definition scheduler_thread (E : Engine) (page : Scraper.Fetched) (now : Z)
    (w : Blockchain.World) (jobs : list Job) (s : Store) : Store :=
  fold_left (run_job E) jobs (initial_collection E page now w s).

(** [main()]: the database is initialized, then the scheduler runs. *)
Definition main (E : Engine) (db : option Store) (page : Scraper.Fetched)
    (now : Z) (w : Blockchain.World) (jobs : list Job) : Store :=
  scheduler_thread E page now w jobs (initialize_database db).

(** A listing record as the scraper builds it. *)
Definition coin_ok (x : Coin.t) : Prop :=
  Text.startswith "0x" (Coin.contract x) = true /\ (0 <= Coin.price x)%Q.

(** What the two writers keep true of a row. *)
Definition row_ok (r : Row.t) : Prop :=
  Text.startswith "0x" (Row.contract r) = true
  /\ (exists p, Row.price r = Some p /\ (0 <= p)%Q)
  /\ Row.last_updated r <> None
  /\ (Row.holders r = None <-> Row.transfers_24h r = None).

Definition consistent (s : Store) : Prop :=
  unique_contracts s
  /\ NoDup (map Row.id (rows s))
  /\ Forall row_ok (rows s).

End Main.

(** ** Sample data: the scenario of the specification *)

Module Sample.

Import Database.

Definition doge : Coin.t :=
  {| Coin.name := "Doge2"; Coin.symbol := "DOGE2"; Coin.contract := "0xAAA";
     Coin.price := (1 # 1000)%Q; Coin.last_updated := 1000 |}.

Definition doge_repriced : Coin.t :=
  {| Coin.name := "Doge2"; Coin.symbol := "DOGE2"; Coin.contract := "0xAAA";
     Coin.price := (2 # 1000)%Q; Coin.last_updated := 3000 |}.

Definition pepe : Coin.t :=
  {| Coin.name := "Pepe"; Coin.symbol := "PEPE"; Coin.contract := "0xBBB";
     Coin.price := (5 # 100)%Q; Coin.last_updated := 1000 |}.

(** Store empty, then one listing refresh. *)
Definition listed : Store :=
  update_coin_data rowid_engine (initialize_database None) [doge; pepe].

(** Then the metrics of 0xAAA refreshed at time 2000. *)
Definition enriched : Store :=
  update_blockchain_metrics listed "0xAAA" 500 42 2000.

(** Then a second listing refresh with a new price, at time 3000. *)
Definition relisted : Store :=
  update_coin_data rowid_engine enriched [doge_repriced].

(** A card with a name and a price and nothing to read a contract from:
    no link to bscscan.com and no cell of class [contract]. *)
Definition bare_card : Scraper.Element :=
  {| Scraper.span_coin_name := Some "Foo";
     Scraper.td_name := None;
     Scraper.span_coin_symbol := Some "FOO";
     Scraper.td_symbol := None;
     Scraper.bscscan_link := None;
     Scraper.td_contract := None;
     Scraper.span_coin_price := Some "$0.5";
     Scraper.td_price := None;
     Scraper.has_link := false;
     Scraper.mentions_contract := false |}.

(** A row of class [coin-row] whose cell of class [contract] holds no
    link. *)
Definition unlinked_row (name symbol : string) : Scraper.Element :=
  {| Scraper.span_coin_name := None;
     Scraper.td_name := Some name;
     Scraper.span_coin_symbol := None;
     Scraper.td_symbol := Some symbol;
     Scraper.bscscan_link := None;
     Scraper.td_contract := Some None;
     Scraper.span_coin_price := None;
     Scraper.td_price := Some "1.5";
     Scraper.has_link := false;
     Scraper.mentions_contract := true |}.

(** An answer of the explorer with status 1 and three entries. *)
Definition three_entries : Py.Json :=
  Py.JObj [("status", Py.JStr "1");
           ("result", Py.JArr [Py.JObj [("timeStamp", Py.JStr "1990")];
                               Py.JObj [("timeStamp", Py.JStr "1500")];
                               Py.JObj [("timeStamp", Py.JStr "10")]])].

(** A pass at time 2000 in which the holder query for 0xAAA times out. *)
Definition holders_down : Blockchain.World :=
  {| Blockchain.holders_response := fun c =>
       if String.eqb c "0xAAA" then Blockchain.RequestRaises
       else Blockchain.Body three_entries;
     Blockchain.transfers_response := fun _ => Blockchain.Body three_entries;
     Blockchain.clock_at_transfers := fun _ => 88000;
     Blockchain.clock_at_write := fun _ => 88001;
     Blockchain.write_raises := fun _ => false |}.

(** A pass in which the database write for 0xAAA raises. *)
Definition write_fails : Blockchain.World :=
  {| Blockchain.holders_response := fun _ => Blockchain.Body three_entries;
     Blockchain.transfers_response := fun _ => Blockchain.Body three_entries;
     Blockchain.clock_at_transfers := fun _ => 88000;
     Blockchain.clock_at_write := fun _ => 88001;
     Blockchain.write_raises := fun c => String.eqb c "0xAAA" |}.

End Sample.

Module Listing.

(** A card of the listing page with a link to the token on bscscan.com. *)
Definition linked_card (name symbol address price : string)
  : Scraper.Element :=
  {| Scraper.span_coin_name := Some name;
     Scraper.td_name := None;
     Scraper.span_coin_symbol := Some symbol;
     Scraper.td_symbol := None;
     Scraper.bscscan_link :=
       Some {| Scraper.href := Some ("https://bscscan.com/token/" ++ address);
               Scraper.anchor_text := "view" |};
     Scraper.td_contract := None;
     Scraper.span_coin_price := Some price;
     Scraper.td_price := None;
     Scraper.has_link := true;
     Scraper.mentions_contract := false |}.

(** A listing page with two cards. *)
Definition page : Scraper.Fetched :=
  Scraper.Parsed
    {| Scraper.coin_cards := [linked_card " Doge2 " "DOGE2" "0xAAA" "$0.001";
                              linked_card "Pepe" "PEPE" "0xBBB" "0.05"];
       Scraper.coin_rows := [];
       Scraper.table_rows := [] |}.

End Listing.

(** * Properties *)

Import Database.

Local Open Scope list_scope.

(** ** Listing upserts *)

Lemma has_contract_true (c : string) (r : Row.t) :
  has_contract c r = true <-> Row.contract r = c.
Proof. unfold has_contract. apply String.eqb_eq. Qed.

Lemma has_contract_false (c : string) (r : Row.t) :
  has_contract c r = false <-> Row.contract r <> c.
Proof. unfold has_contract. apply String.eqb_neq. Qed.

Lemma existsb_has_contract (c : string) (l : list Row.t) :
  existsb (has_contract c) l = true <-> In c (map Row.contract l).
Proof.
  rewrite existsb_exists, in_map_iff. split.
  - intros [r [Hin Hc]]. exists r. now rewrite <- has_contract_true.
  - intros [r [Hc Hin]]. exists r. now rewrite has_contract_true.
Qed.

Lemma set_listing_contract (coin : Coin.t) (r : Row.t) :
  Row.contract (set_listing coin r) = Row.contract r.
Proof. reflexivity. Qed.

Lemma set_listing_twice (x y : Coin.t) (r : Row.t) :
  set_listing x (set_listing y r) = set_listing x r.
Proof. reflexivity. Qed.

Lemma set_listing_inserted (rowid : Z) (x : Coin.t) :
  set_listing x (inserted_row rowid x) = inserted_row rowid x.
Proof. reflexivity. Qed.

Lemma refresh_contract (b : list Coin.t) (r : Row.t) :
  Row.contract (refresh b r) = Row.contract r.
Proof. unfold refresh. now destruct (last_listing b (Row.contract r)). Qed.

Lemma last_listing_snoc (b : list Coin.t) (x : Coin.t) (c : string) :
  last_listing (b ++ [x]) c =
  if String.eqb (Coin.contract x) c then Some x else last_listing b c.
Proof. unfold last_listing. now rewrite rev_app_distr. Qed.

Lemma last_listing_contract (b : list Coin.t) (c : string) (x : Coin.t) :
  last_listing b c = Some x -> Coin.contract x = c /\ In x b.
Proof.
  unfold last_listing. intros H. apply find_some in H.
  destruct H as [Hin Heq]. split.
  - now apply String.eqb_eq.
  - now apply in_rev.
Qed.

Lemma last_listing_none (b : list Coin.t) (c : string) :
  last_listing b c = None <-> ~ In c (map Coin.contract b).
Proof.
  unfold last_listing. split.
  - intros H Hin. apply in_map_iff in Hin. destruct Hin as [x [Hc Hx]].
    apply in_rev in Hx. pose proof (find_none _ _ H x Hx) as Hn.
    simpl in Hn. apply String.eqb_neq in Hn. contradiction.
  - intros H. destruct (find _ (rev b)) eqn:Hf; [|reflexivity].
    apply find_some in Hf. destruct Hf as [Hin Heq].
    exfalso. apply H. apply in_map_iff. exists t. split.
    + now apply String.eqb_eq.
    + now apply in_rev.
Qed.

Lemma refresh_snoc_same (b : list Coin.t) (x : Coin.t) (r : Row.t) :
  Row.contract r = Coin.contract x ->
  refresh (b ++ [x]) r = set_listing x r.
Proof.
  intros H. unfold refresh. rewrite last_listing_snoc, H.
  now rewrite String.eqb_refl.
Qed.

Lemma refresh_snoc_other (b : list Coin.t) (x : Coin.t) (r : Row.t) :
  Row.contract r <> Coin.contract x ->
  refresh (b ++ [x]) r = refresh b r.
Proof.
  intros H. unfold refresh. rewrite last_listing_snoc.
  destruct (String.eqb_spec (Coin.contract x) (Row.contract r)); congruence.
Qed.

Lemma set_listing_refresh (b : list Coin.t) (x : Coin.t) (r : Row.t) :
  set_listing x (refresh b r) = set_listing x r.
Proof. unfold refresh. now destruct (last_listing b (Row.contract r)). Qed.

(** A record of a batch meets a store that holds its contract or not. *)
Ltac by_presence x s :=
  destruct (in_dec string_dec (Coin.contract x) (contracts s)) as [Hin|Hout].

Section Upserts.

Variable E : Engine.

Lemma update_coin_data_snoc (s : Store) (b : list Coin.t)
    (x : Coin.t) :
  update_coin_data E s (b ++ [x]) = execute_upsert E (update_coin_data E s b) x.
Proof. unfold update_coin_data. now rewrite fold_left_app. Qed.

Lemma execute_upsert_present (s : Store) (x : Coin.t) :
  In (Coin.contract x) (contracts s) ->
  rows (execute_upsert E s x) =
  map (fun r => if has_contract (Coin.contract x) r then set_listing x r else r)
      (rows s).
Proof.
  intros H. apply existsb_has_contract in H.
  unfold execute_upsert. now rewrite H.
Qed.

Lemma execute_upsert_absent (s : Store) (x : Coin.t) :
  ~ In (Coin.contract x) (contracts s) ->
  rows (execute_upsert E s x) = rows s ++ [inserted_row (next_rowid s) x].
Proof.
  intros H. unfold execute_upsert.
  destruct (existsb (has_contract (Coin.contract x)) (rows s)) eqn:Hex.
  - apply existsb_has_contract in Hex. contradiction.
  - reflexivity.
Qed.

Lemma execute_upsert_contracts_present (s : Store) (x : Coin.t) :
  In (Coin.contract x) (contracts s) ->
  contracts (execute_upsert E s x) = contracts s.
Proof.
  intros H. unfold contracts. rewrite execute_upsert_present by exact H.
  rewrite map_map. apply map_ext. intros r.
  now destruct (has_contract (Coin.contract x) r).
Qed.

Lemma execute_upsert_contracts_absent (s : Store) (x : Coin.t) :
  ~ In (Coin.contract x) (contracts s) ->
  contracts (execute_upsert E s x) = contracts s ++ [Coin.contract x].
Proof.
  intros H. unfold contracts. rewrite execute_upsert_absent by exact H.
  now rewrite map_app.
Qed.

Lemma execute_upsert_unique (s : Store) (x : Coin.t) :
  unique_contracts s -> unique_contracts (execute_upsert E s x).
Proof.
  unfold unique_contracts. intros H.
  by_presence x s.
  - now rewrite execute_upsert_contracts_present.
  - rewrite execute_upsert_contracts_absent by exact Hout.
    apply NoDup_app; [exact H | repeat constructor; intros [] | ].
    intros c Hc [Heq|[]]. subst c. contradiction.
Qed.

Lemma update_coin_data_unique (b : list Coin.t) (s : Store) :
  unique_contracts s -> unique_contracts (update_coin_data E s b).
Proof.
  revert s. induction b as [|x b IH]; intros s H; [exact H|].
  apply IH. now apply execute_upsert_unique.
Qed.

Lemma execute_upsert_keeps (s : Store) (x : Coin.t) (c : string) :
  In c (contracts s) -> In c (contracts (execute_upsert E s x)).
Proof.
  intros H.
  by_presence x s.
  - now rewrite execute_upsert_contracts_present.
  - rewrite execute_upsert_contracts_absent by exact Hout.
    apply in_or_app. now left.
Qed.

Lemma execute_upsert_adds (s : Store) (x : Coin.t) :
  In (Coin.contract x) (contracts (execute_upsert E s x)).
Proof.
  by_presence x s.
  - now rewrite execute_upsert_contracts_present.
  - rewrite execute_upsert_contracts_absent by exact Hout.
    apply in_or_app. right. now left.
Qed.

Lemma update_coin_data_keeps (b : list Coin.t) (s : Store)
    (c : string) :
  In c (contracts s) -> In c (contracts (update_coin_data E s b)).
Proof.
  revert s. induction b as [|x b IH]; intros s H; [exact H|].
  apply IH. now apply execute_upsert_keeps.
Qed.

Lemma update_coin_data_adds (b : list Coin.t) (s : Store)
    (c : string) :
  In c (map Coin.contract b) -> In c (contracts (update_coin_data E s b)).
Proof.
  revert s. induction b as [|x b IH]; intros s H; [destruct H|].
  change (In c (contracts (update_coin_data E (execute_upsert E s x) b))).
  destruct H as [H|H].
  - subst c. apply update_coin_data_keeps. apply execute_upsert_adds.
  - now apply IH.
Qed.

(** The rows after a batch: every row the store had, refreshed by the last
    record listed for its contract, followed by the rows the batch added. *)
Lemma update_coin_data_rows (s : Store) (b : list Coin.t) :
  exists inserted,
    rows (update_coin_data E s b) = map (refresh b) (rows s) ++ inserted
    /\ Forall (newly_listed s b) inserted.
Proof.
  induction b as [|x b IH] using rev_ind.
  - exists []. split; [|constructor].
    simpl. rewrite app_nil_r. symmetry. apply map_id.
  - destruct IH as [ins [Hrows Hins]].
    rewrite update_coin_data_snoc.
    set (sb := update_coin_data E s b) in *.
    assert (Hmono : forall r, newly_listed s b r -> newly_listed s (b ++ [x]) r).
    { intros r (Hh & Ht & Hout & Hin). repeat split; try assumption.
      rewrite map_app. apply in_or_app. now left. }
    by_presence x sb.
    + exists (map (fun r => if has_contract (Coin.contract x) r
                            then set_listing x r else r) ins).
      split.
      * rewrite execute_upsert_present by exact Hin.
        rewrite Hrows, map_app, map_map. f_equal.
        apply map_ext. intros r.
        destruct (has_contract (Coin.contract x) (refresh b r)) eqn:Hc.
        -- apply has_contract_true in Hc. rewrite refresh_contract in Hc.
           rewrite refresh_snoc_same by exact Hc. apply set_listing_refresh.
        -- apply has_contract_false in Hc. rewrite refresh_contract in Hc.
           now rewrite refresh_snoc_other.
      * apply Forall_forall. intros r Hr. apply in_map_iff in Hr.
        destruct Hr as [r0 [Hr0 Hin0]]. rewrite Forall_forall in Hins.
        specialize (Hins r0 Hin0). apply Hmono in Hins.
        destruct (has_contract (Coin.contract x) r0); subst r; [|exact Hins].
        destruct Hins as (Hh & Ht & Ho & Hi). now repeat split.
    + exists (ins ++ [inserted_row (next_rowid sb) x]).
      assert (Hnew : ~ In (Coin.contract x) (contracts s)).
      { intros Hc. apply Hout. now apply update_coin_data_keeps. }
      split.
      * rewrite execute_upsert_absent by exact Hout.
        rewrite Hrows, <- app_assoc. f_equal.
        apply map_ext_in. intros r Hr. symmetry. apply refresh_snoc_other.
        intros Heq. apply Hnew. rewrite <- Heq. now apply in_map.
      * apply Forall_app. split.
        -- eapply Forall_impl; [exact Hmono | exact Hins].
        -- constructor; [|constructor]. repeat split; try assumption.
           simpl. rewrite map_app. apply in_or_app. right. now left.
Qed.

(** Every row of the store after a batch already carries the values of the
    last record the batch lists for its contract. *)
Lemma update_coin_data_refreshed (s : Store) (b : list Coin.t) :
  forall r, In r (rows (update_coin_data E s b)) -> refresh b r = r.
Proof.
  induction b as [|x b IH] using rev_ind; intros r Hr; [reflexivity|].
  rewrite update_coin_data_snoc in Hr.
  set (sb := update_coin_data E s b) in *.
  by_presence x sb.
  - rewrite execute_upsert_present in Hr by exact Hin.
    apply in_map_iff in Hr. destruct Hr as [r0 [Hr0 Hin0]].
    destruct (has_contract (Coin.contract x) r0) eqn:Hc; subst r.
    + apply has_contract_true in Hc.
      rewrite refresh_snoc_same by (now rewrite set_listing_contract).
      apply set_listing_twice.
    + apply has_contract_false in Hc.
      rewrite refresh_snoc_other by exact Hc. now apply IH.
  - rewrite execute_upsert_absent in Hr by exact Hout.
    apply in_app_or in Hr. destruct Hr as [Hr|[Hr|[]]].
    + rewrite refresh_snoc_other; [now apply IH|].
      intros Heq. apply Hout. rewrite <- Heq. now apply in_map.
    + subst r. rewrite refresh_snoc_same by reflexivity.
      apply set_listing_inserted.
Qed.

(** Writing a batch again changes no row. *)
Lemma update_coin_data_twice (s : Store) (b : list Coin.t) :
  rows (update_coin_data E (update_coin_data E s b) b)
  = rows (update_coin_data E s b).
Proof.
  destruct (update_coin_data_rows (update_coin_data E s b) b)
    as [ins [Hrows Hins]].
  rewrite Hrows. destruct ins as [|r ins].
  - rewrite app_nil_r. rewrite <- (map_id (rows (update_coin_data E s b))) at 2.
    apply map_ext_in. apply update_coin_data_refreshed.
  - exfalso. inversion Hins as [|? ? (_ & _ & Hout & Hin) _]; subst.
    apply Hout. now apply update_coin_data_adds.
Qed.

End Upserts.

Lemma refresh_listing_frame (b : list Coin.t) (r : Row.t) :
  listing_frame b r (refresh b r).
Proof.
  unfold listing_frame, refresh.
  destruct (last_listing b (Row.contract r)); now repeat split.
Qed.

(** ** Metrics updates *)

Lemma update_blockchain_metrics_absent (s : Store) (c : string) (h t ts : Z) :
  ~ In c (contracts s) -> update_blockchain_metrics s c h t ts = s.
Proof.
  intros H. destruct s as [l n]. unfold update_blockchain_metrics. simpl.
  f_equal. rewrite <- (map_id l) at 2. apply map_ext_in.
  intros r Hr. destruct (has_contract c r) eqn:Hc; [|reflexivity].
  apply has_contract_true in Hc. exfalso. apply H.
  rewrite <- Hc. now apply in_map.
Qed.

Lemma update_blockchain_metrics_contracts (s : Store) (c : string)
    (h t ts : Z) :
  contracts (update_blockchain_metrics s c h t ts) = contracts s.
Proof.
  unfold contracts. simpl. rewrite map_map. apply map_ext.
  intros r. now destruct (has_contract c r).
Qed.

Lemma Forall2_map_right {A : Type} (R : A -> A -> Prop) (f : A -> A)
    (l : list A) :
  (forall a, R a (f a)) -> Forall2 R l (map f l).
Proof. intros H. induction l; simpl; constructor; auto. Qed.

(** The metrics written for a contract survive any later listing batch; the
    timestamp survives only when the batch does not list the contract. *)
Lemma metrics_survive_relisting (E : Engine) (s : Store) (c : string)
    (h t ts : Z) (batch : list Coin.t) (r : Row.t) :
  In c (contracts s) ->
  In r (rows (update_coin_data E (update_blockchain_metrics s c h t ts) batch)) ->
  Row.contract r = c ->
  Row.holders r = Some h
  /\ Row.transfers_24h r = Some t
  /\ Row.last_updated r =
       match last_listing batch c with
       | Some coin => Some (Coin.last_updated coin)
       | None => Some ts
       end.
Proof.
  intros Hc Hr Hrc.
  destruct (update_coin_data_rows E (update_blockchain_metrics s c h t ts) batch)
    as [ins [Hrows Hins]].
  rewrite Hrows in Hr. apply in_app_or in Hr. destruct Hr as [Hr|Hr].
  - apply in_map_iff in Hr. destruct Hr as [r2 [Hr2 Hin2]].
    simpl in Hin2. apply in_map_iff in Hin2. destruct Hin2 as [r1 [Hr1 Hin1]].
    assert (Hc2 : Row.contract r2 = c).
    { rewrite <- Hrc, <- Hr2. symmetry. apply refresh_contract. }
    assert (Hm : r2 = set_metrics h t ts r1).
    { destruct (has_contract c r1) eqn:Hhc; [congruence|].
      apply has_contract_false in Hhc. congruence. }
    destruct (refresh_listing_frame batch r2) as (_ & _ & Hh & Ht & Hl).
    rewrite Hr2 in Hh, Ht, Hl. rewrite Hc2 in Hl.
    rewrite Hh, Ht, Hl, Hm. repeat split.
  - rewrite Forall_forall in Hins. destruct (Hins r Hr) as (_ & _ & Hout & _).
    exfalso. apply Hout. rewrite update_blockchain_metrics_contracts.
    now rewrite Hrc.
Qed.

(** C1 (amended): a listing upsert leaves [holders] and [transfers_24h] of
    every stored row as they were, and writes [last_updated] with the
    timestamp of the last record the batch lists for the row's contract (a
    row the batch does not list keeps it); the rows it adds have no metrics.
    In an upsert, metrics update, upsert sequence the row of the contract
    keeps the [holders] and [transfers_24h] of the metrics update. *)
Theorem listing_upsert_keeps_metrics (E : Engine) (s : Store)
    (batch : list Coin.t) :
  (exists kept inserted,
      rows (update_coin_data E s batch) = kept ++ inserted
      /\ Forall2 (listing_frame batch) (rows s) kept
      /\ Forall (newly_listed s batch) inserted)
  /\ (forall first c h t ts r,
        In c (map Coin.contract first) ->
        In r (rows (update_coin_data E
                      (update_blockchain_metrics
                         (update_coin_data E s first) c h t ts) batch)) ->
        Row.contract r = c ->
        Row.holders r = Some h
        /\ Row.transfers_24h r = Some t
        /\ Row.last_updated r =
             match last_listing batch c with
             | Some coin => Some (Coin.last_updated coin)
             | None => Some ts
             end).
Proof.
  split.
  - destruct (update_coin_data_rows E s batch) as [ins [Hrows Hins]].
    exists (map (refresh batch) (rows s)), ins. repeat split; try assumption.
    apply Forall2_map_right. apply refresh_listing_frame.
  - intros first c h t ts r Hc. apply metrics_survive_relisting.
    now apply update_coin_data_adds.
Qed.

(** C1 as stated fails: in the scenario of the specification the second
    listing upsert replaces the [last_updated] written by the metrics
    update (2000) with the timestamp of the listing record (3000). *)
Lemma listing_upsert_overwrites_last_updated :
  map Row.last_updated (rows Sample.enriched) = [Some 2000; Some 1000]
  /\ map Row.last_updated (rows Sample.relisted) = [Some 3000; Some 1000]
  /\ map Row.holders (rows Sample.relisted) = [Some 500; None]
  /\ map Row.contract (rows Sample.relisted) = ["0xAAA"; "0xBBB"]
  /\ map Row.last_updated (rows Sample.relisted)
     <> map Row.last_updated (rows Sample.enriched).
Proof.
  repeat split. intros H. vm_compute in H. discriminate H.
Qed.

(** C2: writing the same batch a second time changes no row, hence nothing
    a query can read; the table starts with unique contracts, an upsert
    keeps them unique, and it adds no row for a contract that is stored. *)
Theorem upsert_idempotent (E : Engine) (s : Store) (batch : list Coin.t) :
  rows (update_coin_data E (update_coin_data E s batch) batch)
  = rows (update_coin_data E s batch)
  /\ get_all_contracts E (update_coin_data E (update_coin_data E s batch) batch)
     = get_all_contracts E (update_coin_data E s batch)
  /\ (forall q,
        search_coin E (update_coin_data E (update_coin_data E s batch) batch) q
        = search_coin E (update_coin_data E s batch) q)
  /\ unique_contracts (initialize_database None)
  /\ (unique_contracts s -> unique_contracts (update_coin_data E s batch))
  /\ (forall coin,
        In (Coin.contract coin) (contracts s) ->
        contracts (execute_upsert E s coin) = contracts s).
Proof.
  pose proof (update_coin_data_twice E s batch) as H.
  repeat split.
  - exact H.
  - unfold get_all_contracts. now rewrite H.
  - intros q. unfold search_coin. now rewrite H.
  - constructor.
  - apply update_coin_data_unique.
  - intros coin. apply execute_upsert_contracts_present.
Qed.

(** C3: updating the metrics of a contract the store does not hold returns
    the store as it was (the UPDATE matches no row, which is no error). *)
Theorem metrics_update_of_missing_contract (s : Store) (c : string)
    (h t ts : Z) :
  ~ In c (contracts s) ->
  update_blockchain_metrics s c h t ts = s.
Proof. apply update_blockchain_metrics_absent. Qed.

Lemma metrics_update_of_missing_contract_witness :
  ~ In "0xCCC" (contracts Sample.listed)
  /\ update_blockchain_metrics Sample.listed "0xCCC" 500 42 2000
     = Sample.listed.
Proof.
  assert (H : ~ In "0xCCC" (contracts Sample.listed)).
  { simpl. intros [H|[H|[]]]; discriminate H. }
  split; [exact H|].
  exact (metrics_update_of_missing_contract Sample.listed "0xCCC" 500 42 2000 H).
Defined.

(** C4: a metrics update leaves [name], [symbol] and [price] of every row
    as they were, and every row of another contract entirely unchanged. *)
Theorem metrics_update_frame (s : Store) (c : string) (h t ts : Z) :
  Forall2 (metrics_frame c) (rows s)
          (rows (update_blockchain_metrics s c h t ts))
  /\ seq (update_blockchain_metrics s c h t ts) = seq s.
Proof.
  split; [|reflexivity].
  simpl. apply Forall2_map_right. intros r. unfold metrics_frame.
  destruct (has_contract c r) eqn:Hc.
  - apply has_contract_true in Hc. repeat split. intros Hne. contradiction.
  - repeat split.
Qed.

(** ** The metrics pass *)

Import Blockchain.

Lemma holders_failure_zero (r : Response) :
  holders_failure r -> fetch_holders_count r = 0.
Proof.
  unfold fetch_holders_count. intros [H|H].
  - unfold raises_in_try in H. now rewrite H.
  - unfold holders_count_try. destruct r as [| |data]; simpl in *; try easy.
    destruct (Py.getitem data "status") as [status|]; simpl; [|reflexivity].
    now rewrite H.
Qed.

Lemma request_failures (r : Response) :
  r = RequestRaises \/ r = JsonRaises -> holders_failure r.
Proof. intros [H|H]; subst r; now left. Qed.

Lemma for_each_contract_events (w : World) (l : list string) (s : Store) :
  snd (for_each_contract w l s) = flat_map (iteration_events w) l.
Proof.
  revert s. induction l as [|c l IH]; intros s; [reflexivity|].
  simpl. unfold iteration_events, process_contract.
  destruct (write_raises w c).
  - specialize (IH s). destruct (for_each_contract w l s). simpl in *.
    now rewrite IH.
  - match goal with
    | |- context [for_each_contract w l ?s1] =>
        specialize (IH s1); destruct (for_each_contract w l s1)
    end.
    simpl in *. now rewrite IH.
Qed.

Lemma after_pass_contract (w : World) (r : Row.t) :
  Row.contract (after_pass w r) = Row.contract r.
Proof. unfold after_pass. now destruct (write_raises w (Row.contract r)). Qed.

Lemma after_pass_twice (w : World) (r : Row.t) :
  after_pass w (after_pass w r) = after_pass w r.
Proof.
  unfold after_pass at 1. rewrite after_pass_contract.
  unfold after_pass. now destruct (write_raises w (Row.contract r)).
Qed.

(** The rows after the loop has run over [l]: a row is rewritten when its
    contract is in [l], whatever happened at the other contracts. *)
Lemma for_each_contract_rows (w : World) (l : list string) (s : Store) :
  rows (fst (for_each_contract w l s))
  = map (fun r => if listed_in l r then after_pass w r else r) (rows s).
Proof.
  revert s. induction l as [|c l IH]; intros s.
  - simpl. symmetry. apply map_id.
  - simpl. unfold process_contract.
    destruct (write_raises w c) eqn:Hw.
    + specialize (IH s). destruct (for_each_contract w l s) as [s2 ev].
      simpl in *. rewrite IH. apply map_ext. intros r.
      unfold listed_in. simpl.
      destruct (String.eqb_spec (Row.contract r) c) as [Heq|Hne]; simpl.
      * unfold after_pass. rewrite Heq, Hw.
        now destruct (existsb (String.eqb c) l).
      * reflexivity.
    + match goal with
      | |- context [for_each_contract w l ?s1] =>
          specialize (IH s1); destruct (for_each_contract w l s1) as [s2 ev]
      end.
      simpl in *. rewrite IH, map_map. apply map_ext. intros r.
      unfold listed_in, has_contract. simpl.
      destruct (String.eqb_spec (Row.contract r) c) as [Heq|Hne]; simpl.
      * assert (Ha : set_metrics (fetch_holders_count (holders_response w c))
                       (fetch_transfers_24h (transfers_response w c)
                          (clock_at_transfers w c))
                       (clock_at_write w c) r = after_pass w r).
        { unfold after_pass. now rewrite Heq, Hw. }
        rewrite Ha, after_pass_twice.
        now destruct (existsb (String.eqb (Row.contract r)) l).
      * reflexivity.
Qed.

Lemma get_all_contracts_complete (E : Engine) (s : Store) (r : Row.t) :
  In r (rows s) -> In (Row.contract r) (get_all_contracts E s).
Proof.
  intros H. unfold get_all_contracts. apply in_map.
  apply (Permutation_in r (Permutation_sym (scan_contracts_perm E (rows s)))).
  exact H.
Qed.

Lemma get_all_contracts_sound (E : Engine) (s : Store) (c : string) :
  In c (get_all_contracts E s) -> In c (contracts s).
Proof.
  unfold get_all_contracts, contracts. intros H.
  apply in_map_iff in H. destruct H as [r [Hc Hr]].
  apply in_map_iff. exists r. split; [exact Hc|].
  exact (Permutation_in r (scan_contracts_perm E (rows s)) Hr).
Qed.

Lemma update_blockchain_data_loop (E : Engine) (w : World) (s : Store) :
  update_blockchain_data E w s
  = for_each_contract w (get_all_contracts E s) s.
Proof.
  unfold update_blockchain_data. now destruct (get_all_contracts E s).
Qed.

(** The store a pass leaves. *)
Lemma update_blockchain_data_rows (E : Engine) (w : World) (s : Store) :
  rows (fst (update_blockchain_data E w s)) = map (after_pass w) (rows s).
Proof.
  rewrite update_blockchain_data_loop, for_each_contract_rows.
  apply map_ext_in. intros r Hr.
  assert (Hl : listed_in (get_all_contracts E s) r = true).
  { unfold listed_in. apply existsb_exists.
    exists (Row.contract r). split.
    - now apply get_all_contracts_complete.
    - apply String.eqb_refl. }
  now rewrite Hl.
Qed.

(** The calls a pass makes. *)
Lemma update_blockchain_data_events (E : Engine) (w : World) (s : Store) :
  snd (update_blockchain_data E w s)
  = flat_map (iteration_events w) (get_all_contracts E s).
Proof.
  rewrite update_blockchain_data_loop. apply for_each_contract_events.
Qed.

Lemma flat_map_split {A B : Type} (f : A -> list B) (l : list A) (a : A) :
  In a l ->
  exists before after, flat_map f l = before ++ f a ++ after.
Proof.
  intros H. apply in_split in H. destruct H as [l1 [l2 Hl]]. subst l.
  exists (flat_map f l1), (flat_map f l2).
  now rewrite flat_map_app.
Qed.

Lemma visited_iterations (w : World) (l : list string) :
  visited (flat_map (iteration_events w) l) = l.
Proof.
  induction l as [|c l IH]; [reflexivity|].
  simpl. unfold visited in *. rewrite flat_map_app, IH.
  unfold iteration_events, process_contract.
  now destruct (write_raises w c).
Qed.

Lemma row_after_pass (E : Engine) (w : World) (s : Store) (r : Row.t) :
  In r (rows (fst (update_blockchain_data E w s))) ->
  exists r0, In r0 (rows s) /\ r = after_pass w r0
             /\ Row.contract r0 = Row.contract r.
Proof.
  rewrite update_blockchain_data_rows. intros H.
  apply in_map_iff in H. destruct H as [r0 [Hr0 Hin]].
  exists r0. repeat split; try easy.
  subst r. symmetry. apply after_pass_contract.
Qed.

(** A contract whose own write does not raise has its row rewritten with
    what the world gave for it. *)
Lemma row_receives_update (E : Engine) (w : World) (s : Store) (r : Row.t) :
  In r (rows (fst (update_blockchain_data E w s))) ->
  write_raises w (Row.contract r) = false ->
  Row.holders r = Some (holders_of w (Row.contract r))
  /\ Row.transfers_24h r = Some (transfers_of w (Row.contract r))
  /\ Row.last_updated r = Some (clock_at_write w (Row.contract r)).
Proof.
  intros Hr Hw. apply row_after_pass in Hr.
  destruct Hr as [r0 [_ [Hr Hc]]]. subst r.
  rewrite <- Hc in *. unfold after_pass. now rewrite Hw.
Qed.

Lemma contract_still_stored (E : Engine) (w : World) (s : Store) (c : string) :
  In c (get_all_contracts E s) ->
  exists r, In r (rows (fst (update_blockchain_data E w s)))
            /\ Row.contract r = c.
Proof.
  intros H. apply get_all_contracts_sound in H.
  apply in_map_iff in H. destruct H as [r0 [Hc Hr0]].
  exists (after_pass w r0). split.
  - rewrite update_blockchain_data_rows. now apply in_map.
  - now rewrite after_pass_contract.
Qed.

(** C5: a holder-count fetch that raises, times out or is answered with a
    failure status returns 0; for a stored contract the pass then still
    queries the transfers of the same contract and calls the store with
    holders 0, and that 0 is the [holders] of the contract's row once the
    write has gone through. *)
Theorem holders_zero_on_failure (E : Engine) (w : World) (s : Store)
    (c : string) :
  holders_failure (holders_response w c) ->
  fetch_holders_count (holders_response w c) = 0
  /\ (In c (get_all_contracts E s) ->
      (exists before after,
          snd (update_blockchain_data E w s)
          = before
            ++ [ HoldersQuery c; Sleep REQUEST_DELAY_ms;
                 TransfersQuery c; Sleep REQUEST_DELAY_ms;
                 MetricsWrite c 0 (transfers_of w c) (clock_at_write w c) ]
            ++ after)
      /\ (exists r, In r (rows (fst (update_blockchain_data E w s)))
                    /\ Row.contract r = c)
      /\ (write_raises w c = false ->
          forall r, In r (rows (fst (update_blockchain_data E w s))) ->
                    Row.contract r = c -> Row.holders r = Some 0)).
Proof.
  intros Hf. pose proof (holders_failure_zero _ Hf) as Hz.
  split; [exact Hz|]. intros Hc. repeat split.
  - rewrite update_blockchain_data_events.
    destruct (flat_map_split (iteration_events w) _ c Hc) as [pre [post Hs]].
    exists pre, ((if write_raises w c then [ErrorLogged c] else []) ++ post).
    rewrite Hs. unfold iteration_events, process_contract, transfers_of.
    rewrite Hz. destruct (write_raises w c); simpl; now rewrite <- ?app_assoc.
  - now apply contract_still_stored.
  - intros Hw r Hr Hrc. subst c.
    destruct (row_receives_update E w s r Hr Hw) as [Hh _].
    rewrite Hh. unfold holders_of. now rewrite Hz.
Qed.

Lemma holders_zero_on_failure_witness :
  holders_failure (holders_response Sample.holders_down "0xAAA")
  /\ fetch_holders_count (holders_response Sample.holders_down "0xAAA") = 0
  /\ (In "0xAAA" (get_all_contracts rowid_engine Sample.listed) ->
      (exists before after,
          snd (update_blockchain_data rowid_engine Sample.holders_down
                 Sample.listed)
          = before
            ++ [ HoldersQuery "0xAAA"; Sleep REQUEST_DELAY_ms;
                 TransfersQuery "0xAAA"; Sleep REQUEST_DELAY_ms;
                 MetricsWrite "0xAAA" 0
                   (transfers_of Sample.holders_down "0xAAA")
                   (clock_at_write Sample.holders_down "0xAAA") ]
            ++ after)
      /\ (exists r,
            In r (rows (fst (update_blockchain_data rowid_engine
                               Sample.holders_down Sample.listed)))
            /\ Row.contract r = "0xAAA")
      /\ (write_raises Sample.holders_down "0xAAA" = false ->
          forall r,
            In r (rows (fst (update_blockchain_data rowid_engine
                               Sample.holders_down Sample.listed))) ->
            Row.contract r = "0xAAA" -> Row.holders r = Some 0)).
Proof.
  assert (H : holders_failure (holders_response Sample.holders_down "0xAAA"))
    by (left; reflexivity).
  split; [exact H|].
  exact (holders_zero_on_failure rowid_engine Sample.holders_down
           Sample.listed "0xAAA" H).
Defined.

(** Zero on failure on the sample: the holder query for 0xAAA times out,
    its transfers are still counted, and the row is written with 0. *)
Example holders_down_pass :
  map (fun r => (Row.contract r, Row.holders r, Row.transfers_24h r))
      (rows (fst (update_blockchain_data rowid_engine Sample.holders_down
                    Sample.listed)))
  = [("0xAAA", Some 0, Some 1); ("0xBBB", Some 3, Some 1)].
Proof. vm_compute. reflexivity. Qed.

(** C6: a pass visits the contracts one after the other in the order of
    [get_all_contracts], each with its own queries and write, and a write
    that raises is caught: every row whose own write goes through carries
    its update at the end of the pass, wherever a raising contract stood in
    the list. *)
Theorem metrics_pass_order_and_isolation (E : Engine) (w : World) (s : Store) :
  snd (update_blockchain_data E w s)
  = flat_map (iteration_events w) (get_all_contracts E s)
  /\ visited (snd (update_blockchain_data E w s)) = get_all_contracts E s
  /\ rows (fst (update_blockchain_data E w s)) = map (after_pass w) (rows s)
  /\ (forall b,
        In b (get_all_contracts E s) ->
        write_raises w b = false ->
        exists r,
          In r (rows (fst (update_blockchain_data E w s)))
          /\ Row.contract r = b
          /\ Row.holders r = Some (holders_of w b)
          /\ Row.transfers_24h r = Some (transfers_of w b)
          /\ Row.last_updated r = Some (clock_at_write w b)).
Proof.
  repeat split.
  - apply update_blockchain_data_events.
  - rewrite update_blockchain_data_events. apply visited_iterations.
  - apply update_blockchain_data_rows.
  - intros b Hb Hw.
    destruct (contract_still_stored E w s b Hb) as [r [Hr Hc]].
    exists r. subst b.
    destruct (row_receives_update E w s r Hr Hw) as (Hh & Ht & Hl).
    now repeat split.
Qed.

(** Batch isolation on the sample: the write for 0xAAA raises and is
    logged, and 0xBBB, listed after it, has its metrics at the end. *)
Example write_failure_is_isolated :
  get_all_contracts rowid_engine Sample.listed = ["0xAAA"; "0xBBB"]
  /\ In (ErrorLogged "0xAAA")
        (snd (update_blockchain_data rowid_engine Sample.write_fails
                Sample.listed))
  /\ map Row.holders
         (rows (fst (update_blockchain_data rowid_engine Sample.write_fails
                       Sample.listed)))
     = [None; Some 3]
  /\ map Row.transfers_24h
         (rows (fst (update_blockchain_data rowid_engine Sample.write_fails
                       Sample.listed)))
     = [None; Some 1].
Proof.
  split; [reflexivity|].
  split; [vm_compute; tauto|].
  split; vm_compute; reflexivity.
Qed.

(** ** The listing pass *)

Import Scraper.

(** C7: when the coin source fails or finds nothing, [scrape_grafun]
    returns the empty list and [run_scraper] returns the store it was
    given, without a write. *)
Theorem failed_listing_refresh_keeps_store (E : Engine) (page : Fetched)
    (now : Z) (s : Store) :
  (scrape_grafun page now = [] -> run_scraper E page now s = s)
  /\ run_scraper E RequestException now s = s
  /\ run_scraper E UnexpectedException now s = s
  /\ (forall soup,
        select_elements soup = [] -> run_scraper E (Parsed soup) now s = s).
Proof.
  repeat split.
  - intros H. unfold run_scraper. now rewrite H.
  - intros soup H. unfold run_scraper. simpl. now rewrite H.
Qed.

Lemma appended_starts_with_0x (now : Z) (e : Element) (coin : Coin.t) :
  In coin (appended now e) ->
  Text.startswith "0x" (Coin.contract coin) = true.
Proof.
  unfold appended, process_element.
  destruct (contract_element e) as [found|]; simpl; [|easy].
  destruct (price_of _) as [p|]; simpl; [|easy].
  destruct (Text.startswith "0x" (contract_of found)) eqn:H0x; simpl; [|easy].
  intros [H|[]]. subst coin. exact H0x.
Qed.

Lemma scraped_starts_with_0x (page : Fetched) (now : Z) (coin : Coin.t) :
  In coin (scrape_grafun page now) ->
  Text.startswith "0x" (Coin.contract coin) = true.
Proof.
  unfold scrape_grafun. destruct page as [| |soup]; try easy.
  destruct (select_elements soup) as [|e l] eqn:Hsel; [easy|].
  intros H. apply in_flat_map in H. destruct H as [e' [_ H]].
  now apply appended_starts_with_0x in H.
Qed.

Lemma unique_row_of_contract (l : list Row.t) (c : string) :
  NoDup (map Row.contract l) ->
  In c (map Row.contract l) ->
  exists r, filter (has_contract c) l = [r].
Proof.
  induction l as [|r l IH]; intros Hnd Hin; [destruct Hin|].
  simpl in *. inversion Hnd as [|? ? Hout Hnd']; subst.
  destruct (has_contract c r) eqn:Hc.
  - exists r. f_equal. apply has_contract_true in Hc. subst c.
    destruct (filter (has_contract (Row.contract r)) l) as [|x rest] eqn:Hf;
      [reflexivity|].
    exfalso. apply Hout.
    assert (Hx : In x (filter (has_contract (Row.contract r)) l))
      by (rewrite Hf; now left).
    apply filter_In in Hx. destruct Hx as [Hx Hxc].
    apply has_contract_true in Hxc. rewrite <- Hxc. now apply in_map.
  - apply has_contract_false in Hc. destruct Hin as [Hin|Hin]; [contradiction|].
    now apply IH.
Qed.

(** Two records with one contract end in one row, which carries the values
    of the second. *)
Lemma same_contract_collapses (E : Engine) (s : Store) (c1 c2 : Coin.t) :
  Coin.contract c1 = Coin.contract c2 ->
  unique_contracts s ->
  exists r,
    filter (has_contract (Coin.contract c2))
           (rows (update_coin_data E s [c1; c2])) = [r]
    /\ Row.name r = Coin.name c2
    /\ Row.symbol r = Coin.symbol c2
    /\ Row.price r = Some (Coin.price c2).
Proof.
  intros Hsame Hu.
  assert (Hin : In (Coin.contract c2)
                   (contracts (update_coin_data E s [c1; c2]))).
  { apply update_coin_data_adds. simpl. now right; left. }
  destruct (unique_row_of_contract _ _
              (update_coin_data_unique E [c1; c2] s Hu) Hin) as [r Hr].
  exists r. split; [exact Hr|].
  assert (Hrin : In r (filter (has_contract (Coin.contract c2))
                         (rows (update_coin_data E s [c1; c2]))))
    by (rewrite Hr; now left).
  apply filter_In in Hrin. destruct Hrin as [Hrin Hrc].
  apply has_contract_true in Hrc.
  pose proof (update_coin_data_refreshed E s [c1; c2] r Hrin) as Hfix.
  unfold refresh, last_listing in Hfix. simpl in Hfix.
  rewrite Hrc, String.eqb_refl in Hfix.
  rewrite <- Hfix. now repeat split.
Qed.

(** Where the default branch is reached: every scraped record has a
    contract that starts with 0x; an element with no link to bscscan.com
    whose cell of class [contract] holds no link is given the zero address,
    which starts with 0x; two records with the zero address end in a single
    row of the store. *)
Theorem scraped_contracts_and_zero_address (E : Engine) (page : Fetched)
    (now : Z) :
  (forall coin, In coin (scrape_grafun page now) ->
                Text.startswith "0x" (Coin.contract coin) = true)
  /\ Text.startswith "0x" zero_address = true
  /\ (forall e p,
        bscscan_link e = None ->
        td_contract e = Some None ->
        price_of (or_else (span_coin_price e) (td_price e)) = Some p ->
        exists coin,
          appended now e = [coin] /\ Coin.contract coin = zero_address)
  /\ (forall s c1 c2,
        Coin.contract c1 = zero_address ->
        Coin.contract c2 = zero_address ->
        unique_contracts s ->
        exists r,
          filter (has_contract zero_address)
                 (rows (update_coin_data E s [c1; c2])) = [r]
          /\ Row.name r = Coin.name c2
          /\ Row.symbol r = Coin.symbol c2
          /\ Row.price r = Some (Coin.price c2)).
Proof.
  repeat split.
  - apply scraped_starts_with_0x.
  - intros e p Hlink Hcell Hprice.
    unfold appended, process_element, contract_element.
    rewrite Hlink, Hcell. simpl. rewrite Hprice. simpl.
    eexists. split; reflexivity.
  - intros s c1 c2 H1 H2 Hu. rewrite <- H2.
    apply same_contract_collapses; congruence.
Qed.

(** C10: the code misses the default it provides.  An element with no link
    to bscscan.com and no cell of class [contract] has no contract link to
    extract; the second lookup calls [find] on [None] and raises before the
    [else] branch that assigns the zero address, so the element is dropped
    and no record is returned for it.  A sibling element whose cell exists
    and holds no link does reach the default. *)
Lemma element_without_contract_cell_is_dropped :
  contract_element Sample.bare_card = None
  /\ process_element 1000 Sample.bare_card = None
  /\ scrape_grafun
       (Parsed {| coin_cards := [Sample.bare_card];
                  coin_rows := []; table_rows := [] |}) 1000 = []
  /\ map Coin.contract (appended 1000 (Sample.unlinked_row "Foo" "FOO"))
     = [zero_address].
Proof. repeat split. Qed.

(** The zero address on the sample: two rows without a contract link give
    two records with the zero address and one row in the store. *)
Example zero_address_collision :
  map Coin.contract
      (scrape_grafun
         (Parsed {| coin_cards := [];
                    coin_rows := [Sample.unlinked_row "Foo" "FOO";
                                  Sample.unlinked_row "Bar" "BAR"];
                    table_rows := [] |}) 1000)
  = [zero_address; zero_address]
  /\ map Row.name
         (rows (run_scraper rowid_engine
                  (Parsed {| coin_cards := [];
                             coin_rows := [Sample.unlinked_row "Foo" "FOO";
                                           Sample.unlinked_row "Bar" "BAR"];
                             table_rows := [] |})
                  1000 empty))
     = ["Bar"].
Proof. split; vm_compute; reflexivity. Qed.

(** ** Lookup *)

Local Open Scope string_scope.

Lemma like_percent (p t : string) :
  Sqlite.like (String "%" p) t
  = (Sqlite.like p t
     || match t with
        | EmptyString => false
        | String _ t' => Sqlite.like (String "%" p) t'
        end)%bool.
Proof. destruct t; reflexivity. Qed.

Lemma like_literal (c : ascii) (p t : string) :
  Sqlite.is_wildcard c = false ->
  Sqlite.like (String c p) t
  = match t with
    | EmptyString => false
    | String d t' =>
        (Ascii.eqb (Text.to_lower c) (Text.to_lower d) && Sqlite.like p t')%bool
    end.
Proof.
  unfold Sqlite.is_wildcard. intros H. apply orb_false_elim in H.
  destruct H as [H1 H2]. simpl. rewrite H1, H2. now destruct t.
Qed.








Lemma filter_first {A : Type} (f : A -> bool) (l : list A) (a : A)
    (rest : list A) :
  filter f l = a :: rest ->
  exists pre post,
    l = (pre ++ a :: post)%list /\ f a = true /\ forall x, In x pre -> f x = false.
Proof.
  induction l as [|x l IH]; [discriminate|]. simpl.
  destruct (f x) eqn:Hx.
  - intros H. injection H as Hxa _. subst x.
    exists [], l. repeat split; [exact Hx|]. intros y [].
  - intros H. destruct (IH H) as [pre [post (Hl & Ha & Hpre)]].
    exists (x :: pre), post. subst l. repeat split; [exact Ha|].
    intros y [Hy|Hy]; [now subst y | now apply Hpre].
Qed.

Lemma filter_nil {A : Type} (f : A -> bool) (l : list A) :
  filter f l = [] <-> forall x, In x l -> f x = false.
Proof.
  induction l as [|x l IH]; simpl.
  - split; [intros _ y [] | reflexivity].
  - destruct (f x) eqn:Hx.
    + split; [discriminate|]. intros H. specialize (H x (or_introl eq_refl)).
      congruence.
    + rewrite IH. split.
      * intros H y [Hy|Hy]; [now subst y | now apply H].
      * intros H y Hy. apply H. now right.
Qed.

Lemma search_coin_none (E : Engine) (s : Store) (q : string) :
  search_coin E s q = None <-> forall r, In r (rows s) -> where_clause q r = false.
Proof.
  unfold search_coin.
  destruct (filter (where_clause q) (scan_search E (rows s))) as [|r l] eqn:Hf.
  - split; [|reflexivity]. intros _ r Hr.
    apply (proj1 (filter_nil _ _) Hf).
    exact (Permutation_in r (Permutation_sym (scan_search_perm E (rows s))) Hr).
  - split; [discriminate|]. intros H. exfalso.
    assert (Hr : In r (filter (where_clause q) (scan_search E (rows s))))
      by (rewrite Hf; now left).
    apply filter_In in Hr. destruct Hr as [Hr Hm].
    apply (Permutation_in r (scan_search_perm E (rows s))) in Hr.
    specialize (H r Hr). congruence.
Qed.

Lemma search_coin_some (E : Engine) (s : Store) (q : string)
    (v : CoinRecord.t) :
  search_coin E s q = Some v ->
  exists pre r post,
    scan_search E (rows s) = (pre ++ r :: post)%list
    /\ v = select_columns r
    /\ where_clause q r = true
    /\ forall x, In x pre -> where_clause q x = false.
Proof.
  unfold search_coin.
  destruct (filter (where_clause q) (scan_search E (rows s))) as [|r l] eqn:Hf;
    [discriminate|].
  intros H. injection H as Hv.
  destruct (filter_first _ _ _ _ Hf) as [pre [post (Hl & Hm & Hpre)]].
  exists pre, r, post. now repeat split.
Qed.




(** The lookups of the specification's scenarios. *)
Example scenario_lookups :
  get_all_contracts rowid_engine Sample.listed = ["0xAAA"; "0xBBB"]
  /\ option_map CoinRecord.holders
       (search_coin rowid_engine Sample.listed "doge2") = Some None
  /\ search_coin rowid_engine Sample.enriched "DOGE2"
     = Some {| CoinRecord.name := "Doge2";
               CoinRecord.symbol := "DOGE2";
               CoinRecord.contract := "0xAAA";
               CoinRecord.price := Some (1 # 1000)%Q;
               CoinRecord.holders := Some 500;
               CoinRecord.transfers_24h := Some 42;
               CoinRecord.last_updated := Some 2000 |}
  /\ search_coin rowid_engine Sample.enriched "shiba" = None.
Proof. repeat split. Qed.




(** * Further properties of the code *)

(** ** The transfer count *)

Lemma count_recent_exact (threshold : Z) (txs : list Py.Json)
    (stamps : list Z) :
  Forall2 (fun tx ts => Answer.stamp_of tx = Some ts) txs stamps ->
  count_recent threshold txs
  = Some (Z.of_nat (List.length (filter (fun ts => ts >? threshold) stamps))).
Proof.
  intros H. induction H as [|tx ts txs stamps Hts _ IH]; [reflexivity|].
  unfold Answer.stamp_of in Hts.
  cbn [count_recent]. destruct (Py.getitem tx "timeStamp") as [stamp|];
    [|discriminate Hts].
  cbn [Py.bind] in *. rewrite Hts, IH. cbn [Py.bind filter].
  destruct (ts >? threshold); [|reflexivity].
  cbn [List.length]. f_equal. lia.
Qed.

Lemma count_recent_bounds (threshold : Z) (txs : list Py.Json) (n : Z) :
  count_recent threshold txs = Some n ->
  0 <= n <= Z.of_nat (List.length txs).
Proof.
  revert n. induction txs as [|tx txs IH]; intros n H.
  - injection H as <-. simpl. lia.
  - cbn [count_recent] in H.
    destruct (Py.getitem tx "timeStamp") as [stamp|]; [|discriminate H].
    cbn [Py.bind] in H. destruct (Py.int stamp) as [ts|]; [|discriminate H].
    cbn [Py.bind] in H.
    destruct (count_recent threshold txs) as [m|]; [|discriminate H].
    cbn [Py.bind] in H. specialize (IH m eq_refl).
    cbn [List.length].
    destruct (ts >? threshold);
      [assert (n = 1 + m) by congruence | assert (n = m) by congruence]; lia.
Qed.

Lemma count_recent_raises (threshold : Z) (txs : list Py.Json)
    (tx : Py.Json) :
  In tx txs -> Answer.stamp_of tx = None -> count_recent threshold txs = None.
Proof.
  intros Hin Hbad. induction txs as [|x txs IH]; [destruct Hin|].
  cbn [count_recent]. destruct Hin as [->|Hin].
  - unfold Answer.stamp_of in Hbad.
    destruct (Py.getitem tx "timeStamp") as [stamp|]; [|reflexivity].
    cbn [Py.bind] in *. now rewrite Hbad.
  - destruct (Py.getitem x "timeStamp") as [stamp|]; [|reflexivity].
    cbn [Py.bind]. destruct (Py.int stamp); [|reflexivity].
    cbn [Py.bind]. now rewrite (IH Hin).
Qed.

Lemma count_recent_antitone (lo hi : Z) (txs : list Py.Json) :
  lo <= hi ->
  match count_recent lo txs, count_recent hi txs with
  | Some n, Some m => m <= n
  | None, None => True
  | _, _ => False
  end.
Proof.
  intros Hle. induction txs as [|tx txs IH]; [simpl; lia|].
  cbn [count_recent].
  destruct (Py.getitem tx "timeStamp") as [stamp|]; [|exact I].
  cbn [Py.bind]. destruct (Py.int stamp) as [ts|]; [|exact I].
  cbn [Py.bind].
  destruct (count_recent lo txs) as [n|], (count_recent hi txs) as [m|];
    try easy.
  cbn [Py.bind].
  destruct (Z.gtb_spec ts lo), (Z.gtb_spec ts hi); lia.
Qed.

Lemma transfers_try_on_list (data : Py.Json) (txs : list Py.Json) (now : Z) :
  Answer.status_ok data ->
  Py.getitem data "result" = Some (Py.JArr txs) ->
  transfers_24h_try (Body data) now = count_recent (now - 86400) txs.
Proof.
  intros [status [Hst Hok]] Hres. unfold transfers_24h_try.
  cbn [decoded Py.bind]. rewrite Hst. cbn [Py.bind]. rewrite Hok, Hres.
  reflexivity.
Qed.

(** X1: on an answer with status 1 whose result is a list of transactions
    with readable time stamps, the count is the number of stamps strictly
    later than 24 hours before the clock reading; a stamp exactly 24 hours
    old is not counted. *)
Theorem transfers_count_is_window_count (data : Py.Json)
    (txs : list Py.Json) (stamps : list Z) (now : Z) :
  Answer.status_ok data ->
  Py.getitem data "result" = Some (Py.JArr txs) ->
  Forall2 (fun tx ts => Answer.stamp_of tx = Some ts) txs stamps ->
  fetch_transfers_24h (Body data) now
  = Z.of_nat (List.length (Answer.recent now stamps))
  /\ ~ In (now - 86400) (Answer.recent now stamps).
Proof.
  intros Hok Hres Hst. split.
  - unfold fetch_transfers_24h.
    rewrite (transfers_try_on_list data txs now Hok Hres).
    now rewrite (count_recent_exact _ _ _ Hst).
  - unfold Answer.recent. intros Hin. apply filter_In in Hin.
    destruct Hin as [_ H]. apply Z.gtb_lt in H. lia.
Qed.

Lemma transfers_count_is_window_count_witness :
  fetch_transfers_24h (Body Sample.three_entries) 88000
  = Z.of_nat (List.length (Answer.recent 88000 [1990; 1500; 10]))
  /\ ~ In (88000 - 86400) (Answer.recent 88000 [1990; 1500; 10]).
Proof.
  apply (transfers_count_is_window_count Sample.three_entries
           [Py.JObj [("timeStamp", Py.JStr "1990")];
            Py.JObj [("timeStamp", Py.JStr "1500")];
            Py.JObj [("timeStamp", Py.JStr "10")]]
           [1990; 1500; 10] 88000).
  - exists (Py.JStr "1"). split; reflexivity.
  - reflexivity.
  - repeat constructor.
Defined.

(** The shape of the [try] body does not depend on the clock: it returns
    0, raises, or counts over one list of transactions. *)
Lemma transfers_try_shape (r : Response) :
  (forall t, transfers_24h_try r t = Some 0)
  \/ (forall t, transfers_24h_try r t = None)
  \/ exists txs,
       (forall t, transfers_24h_try r t = count_recent (t - 86400) txs)
       /\ (forall data l,
             r = Body data ->
             Py.getitem data "result" = Some (Py.JArr l) -> txs = l).
Proof.
  unfold transfers_24h_try. destruct r as [| |data]; cbn [decoded Py.bind];
    auto.
  destruct (Py.getitem data "status") as [status|]; cbn [Py.bind]; auto.
  destruct (Py.eq_str status "1"); auto.
  destruct (Py.getitem data "result") as [result|] eqn:Hres; cbn [Py.bind];
    auto.
  destruct (Py.iter result) as [txs|] eqn:Hit; cbn [Py.bind]; auto.
  right. right. exists txs. split; [reflexivity|].
  intros d l Hd Hl. injection Hd as <-. rewrite Hres in Hl.
  injection Hl as ->. cbn in Hit. congruence.
Qed.

(** X2: the transfer count is never negative, never more than the number of
    listed transactions, and does not grow when the clock moves on. *)
Theorem transfers_count_bounds (r : Response) (now : Z) :
  0 <= fetch_transfers_24h r now
  /\ (forall data txs,
        r = Body data ->
        Py.getitem data "result" = Some (Py.JArr txs) ->
        fetch_transfers_24h r now <= Z.of_nat (List.length txs))
  /\ (forall later, now <= later ->
        fetch_transfers_24h r later <= fetch_transfers_24h r now).
Proof.
  unfold fetch_transfers_24h.
  destruct (transfers_try_shape r) as [H|[H|[l [H Hl]]]].
  - rewrite H. repeat split; intros; rewrite ?H; cbn [Py.try_except]; lia.
  - rewrite H. repeat split; intros; rewrite ?H; cbn [Py.try_except]; lia.
  - assert (Hb : forall t, 0 <= Py.try_except (count_recent t l) 0
                           <= Z.of_nat (List.length l)).
    { intros t. destruct (count_recent t l) as [n|] eqn:Hn;
        cbn [Py.try_except]; [now apply count_recent_bounds in Hn | lia]. }
    rewrite H. split; [apply Hb|]. split.
    + intros data txs Hd Hres. rewrite <- (Hl data txs Hd Hres). apply Hb.
    + intros later Hle. rewrite H.
      pose proof (count_recent_antitone (now - 86400) (later - 86400) l
                    ltac:(lia)) as Ha.
      destruct (count_recent (now - 86400) l) as [n|],
               (count_recent (later - 86400) l) as [m|];
        cbn [Py.try_except]; try easy; lia.
Qed.

(** X3: the count is all or nothing: one listed transaction without a
    readable time stamp makes the fetch return 0, whatever the others are. *)
Theorem transfers_count_lost_on_bad_entry (data : Py.Json)
    (txs : list Py.Json) (tx : Py.Json) (now : Z) :
  Answer.status_ok data ->
  Py.getitem data "result" = Some (Py.JArr txs) ->
  In tx txs ->
  Answer.stamp_of tx = None ->
  fetch_transfers_24h (Body data) now = 0.
Proof.
  intros Hok Hres Hin Hbad. unfold fetch_transfers_24h.
  rewrite (transfers_try_on_list data txs now Hok Hres).
  now rewrite (count_recent_raises _ _ tx Hin Hbad).
Qed.

Lemma transfers_count_lost_on_bad_entry_witness :
  fetch_transfers_24h
    (Body (Py.JObj [("status", Py.JStr "1");
                    ("result", Py.JArr [Py.JObj [("timeStamp", Py.JStr "87000")];
                                        Py.JObj [("hash", Py.JStr "0xfe")]])]))
    88000 = 0.
Proof.
  apply (transfers_count_lost_on_bad_entry _
           [Py.JObj [("timeStamp", Py.JStr "87000")];
            Py.JObj [("hash", Py.JStr "0xfe")]]
           (Py.JObj [("hash", Py.JStr "0xfe")])).
  - exists (Py.JStr "1"). split; reflexivity.
  - reflexivity.
  - right. left. reflexivity.
  - reflexivity.
Defined.

(** ** The holder count *)



(** ** Metrics writes *)

Lemma set_metrics_twice (h t ts h' t' ts' : Z) (r : Row.t) :
  set_metrics h' t' ts' (set_metrics h t ts r) = set_metrics h' t' ts' r.
Proof. reflexivity. Qed.

(** X5: a second metrics write for a contract replaces the first, writes
    for two different contracts can be swapped, and a row of the written
    contract reads back the three values. *)
Theorem metrics_writes_compose (s : Store) (c : string) (h t ts : Z) :
  (forall h' t' ts',
      update_blockchain_metrics (update_blockchain_metrics s c h t ts)
                                c h' t' ts'
      = update_blockchain_metrics s c h' t' ts')
  /\ (forall c' h' t' ts',
        c' <> c ->
        update_blockchain_metrics (update_blockchain_metrics s c h t ts)
                                  c' h' t' ts'
        = update_blockchain_metrics (update_blockchain_metrics s c' h' t' ts')
                                    c h t ts)
  /\ (forall r,
        In r (rows (update_blockchain_metrics s c h t ts)) ->
        Row.contract r = c ->
        Row.holders r = Some h
        /\ Row.transfers_24h r = Some t
        /\ Row.last_updated r = Some ts).
Proof.
  repeat split.
  - intros h' t' ts'. unfold update_blockchain_metrics. cbn [rows seq].
    f_equal. rewrite map_map. apply map_ext. intros r.
    unfold has_contract. cbn.
    destruct (String.eqb (Row.contract r) c) eqn:Hc; cbn; now rewrite Hc.
  - intros c' h' t' ts' Hne. unfold update_blockchain_metrics. cbn [rows seq].
    f_equal. rewrite !map_map. apply map_ext. intros r.
    destruct (has_contract c r) eqn:Hc, (has_contract c' r) eqn:Hc';
      unfold has_contract in *; cbn [Row.contract set_metrics];
      rewrite ?Hc, ?Hc'; try reflexivity.
    apply String.eqb_eq in Hc, Hc'. congruence.
  - cbn [rows update_blockchain_metrics] in H. apply in_map_iff in H.
    destruct H as [r0 [Hr0 _]].
    destruct (has_contract c r0) eqn:Hc; subst r; [reflexivity|].
    apply has_contract_false in Hc. contradiction.
  - cbn [rows update_blockchain_metrics] in H. apply in_map_iff in H.
    destruct H as [r0 [Hr0 _]].
    destruct (has_contract c r0) eqn:Hc; subst r; [reflexivity|].
    apply has_contract_false in Hc. contradiction.
  - cbn [rows update_blockchain_metrics] in H. apply in_map_iff in H.
    destruct H as [r0 [Hr0 _]].
    destruct (has_contract c r0) eqn:Hc; subst r; [reflexivity|].
    apply has_contract_false in Hc. contradiction.
Qed.

(** ** What a listing batch does to the table *)

Lemma refresh_id (b : list Coin.t) (r : Row.t) :
  Row.id (refresh b r) = Row.id r.
Proof. unfold refresh. now destruct (last_listing b (Row.contract r)). Qed.

(** X6: a listing batch deletes nothing and adds exactly what it lists: the
    rows the store had stay in place with their id and contract, and the
    contracts afterwards are those of the store and those of the batch. *)
Theorem upsert_adds_listed_contracts (E : Engine) (s : Store)
    (batch : list Coin.t) :
  (exists inserted,
      map Row.id (rows (update_coin_data E s batch))
      = (map Row.id (rows s) ++ map Row.id inserted)%list
      /\ contracts (update_coin_data E s batch)
         = (contracts s ++ map Row.contract inserted)%list)
  /\ (forall c,
        In c (get_all_contracts E (update_coin_data E s batch))
        <-> In c (contracts s) \/ In c (map Coin.contract batch)).
Proof.
  destruct (update_coin_data_rows E s batch) as [ins [Hrows Hins]].
  assert (Hc : contracts (update_coin_data E s batch)
               = (contracts s ++ map Row.contract ins)%list).
  { unfold contracts. rewrite Hrows, map_app, map_map. f_equal.
    apply map_ext. apply refresh_contract. }
  split.
  - exists ins. split; [|exact Hc].
    rewrite Hrows, map_app, map_map. f_equal.
    apply map_ext. apply refresh_id.
  - intros c. split.
    + intros H. apply get_all_contracts_sound in H. rewrite Hc in H.
      apply in_app_or in H. destruct H as [H|H]; [now left|].
      right. apply in_map_iff in H. destruct H as [r [<- Hr]].
      rewrite Forall_forall in Hins. now destruct (Hins r Hr) as (_ & _ & _ & H).
    + intros H.
      assert (Hin : In c (contracts (update_coin_data E s batch))).
      { destruct H as [H|H];
          [now apply update_coin_data_keeps | now apply update_coin_data_adds]. }
      unfold contracts in Hin. apply in_map_iff in Hin.
      destruct Hin as [r [<- Hr]]. now apply get_all_contracts_complete.
Qed.

Lemma max_id_bound (l : list Row.t) (r : Row.t) :
  In r l -> Row.id r <= max_id l.
Proof.
  induction l as [|x l IH]; intros H; [destruct H|].
  cbn [max_id fold_right]. fold (max_id l).
  destruct H as [->|H]; [lia|]. specialize (IH H). lia.
Qed.

Lemma next_rowid_fresh (s : Store) :
  ~ In (next_rowid s) (map Row.id (rows s)).
Proof.
  intros H. apply in_map_iff in H. destruct H as [r [Hid Hr]].
  apply max_id_bound in Hr. unfold next_rowid in Hid. lia.
Qed.

Lemma execute_upsert_ids (E : Engine) (s : Store) (x : Coin.t) :
  NoDup (map Row.id (rows s)) ->
  NoDup (map Row.id (rows (execute_upsert E s x)))
  /\ seq s <= seq (execute_upsert E s x).
Proof.
  intros Hnd. unfold execute_upsert.
  destruct (existsb (has_contract (Coin.contract x)) (rows s)); cbn [rows seq].
  - split.
    + rewrite map_map.
      replace (map _ (rows s)) with (map Row.id (rows s)); [exact Hnd|].
      apply map_ext. intros r. now destruct (has_contract (Coin.contract x) r).
    + destruct (burns_rowid_on_conflict E); unfold next_rowid; lia.
  - split.
    + rewrite map_app. apply NoDup_app; [exact Hnd | repeat constructor; intros [] |].
      intros i Hi [<-|[]]. now apply (next_rowid_fresh s).
    + unfold next_rowid. lia.
Qed.

Lemma update_coin_data_ids (E : Engine) (batch : list Coin.t) (s : Store) :
  NoDup (map Row.id (rows s)) ->
  NoDup (map Row.id (rows (update_coin_data E s batch)))
  /\ seq s <= seq (update_coin_data E s batch).
Proof.
  revert s. induction batch as [|x batch IH]; intros s Hnd.
  - split; [exact Hnd | cbn; lia].
  - destruct (execute_upsert_ids E s x Hnd) as [H1 H2].
    destruct (IH (execute_upsert E s x) H1) as [H3 H4].
    split; [exact H3|]. cbn [update_coin_data fold_left] in *.
    unfold update_coin_data in H4. lia.
Qed.



(** ** Lookup after a listing refresh *)

Lemma like_underscore (p t : string) :
  Sqlite.like (String "_" p) t
  = match t with
    | EmptyString => false
    | String _ t' => Sqlite.like p t'
    end.
Proof. now destruct t. Qed.

(** A text always matches the pattern built from itself, wildcards in it
    included. *)
Lemma like_self_prefix (s : string) : Sqlite.like (s ++ "%") s = true.
Proof.
  induction s as [|c s IH]; [reflexivity|].
  change (String c s ++ "%") with (String c (s ++ "%")).
  destruct (Ascii.eqb c "%") eqn:Hp.
  - apply Ascii.eqb_eq in Hp. subst c.
    rewrite like_percent. rewrite (like_percent (s ++ "%") s), IH.
    cbn [orb]. apply orb_true_r.
  - destruct (Ascii.eqb c "_") eqn:Hu.
    + apply Ascii.eqb_eq in Hu. subst c. now rewrite like_underscore.
    + rewrite like_literal by (unfold Sqlite.is_wildcard; now rewrite Hp, Hu).
      now rewrite Ascii.eqb_refl, IH.
Qed.

Lemma like_pattern_self (s : string) :
  Sqlite.like (like_pattern s) s = true.
Proof.
  unfold like_pattern.
  change ("%" ++ s ++ "%") with (String "%" (s ++ "%")).
  rewrite like_percent, like_self_prefix. reflexivity.
Qed.

Lemma search_coin_finds (E : Engine) (s : Store) (q : string) (r : Row.t) :
  In r (rows s) -> where_clause q r = true -> search_coin E s q <> None.
Proof.
  intros Hr Hm Hnone. rewrite search_coin_none in Hnone.
  specialize (Hnone r Hr). congruence.
Qed.

(** X8: what a listing refresh writes can be looked up: after a batch, a
    lookup by the name or by the symbol of the last record listed for a
    contract finds a record; on a new database with one record, the lookup
    by its name returns that record, with no metrics yet. *)
Theorem listed_coin_is_found (E : Engine) (s : Store) (batch : list Coin.t)
    (x : Coin.t) :
  last_listing batch (Coin.contract x) = Some x ->
  search_coin E (update_coin_data E s batch) (Coin.name x) <> None
  /\ search_coin E (update_coin_data E s batch) (Coin.symbol x) <> None
  /\ search_coin E (update_coin_data E (initialize_database None) [x])
                 (Coin.name x)
     = Some {| CoinRecord.name := Coin.name x;
               CoinRecord.symbol := Coin.symbol x;
               CoinRecord.contract := Coin.contract x;
               CoinRecord.price := Some (Coin.price x);
               CoinRecord.holders := None;
               CoinRecord.transfers_24h := None;
               CoinRecord.last_updated := Some (Coin.last_updated x) |}.
Proof.
  intros Hlast.
  assert (Hin : In (Coin.contract x)
                   (contracts (update_coin_data E s batch))).
  { apply update_coin_data_adds. apply last_listing_contract in Hlast.
    apply in_map. tauto. }
  unfold contracts in Hin. apply in_map_iff in Hin. destruct Hin as [r [Hc Hr]].
  pose proof (update_coin_data_refreshed E s batch r Hr) as Hfix.
  unfold refresh in Hfix. rewrite Hc, Hlast in Hfix.
  assert (Hname : Row.name r = Coin.name x) by now rewrite <- Hfix.
  assert (Hsym : Row.symbol r = Coin.symbol x) by now rewrite <- Hfix.
  split; [|split].
  - apply (search_coin_finds E _ _ r Hr). unfold where_clause.
    now rewrite Hname, like_pattern_self.
  - apply (search_coin_finds E _ _ r Hr). unfold where_clause.
    rewrite Hsym, like_pattern_self. apply orb_true_r.
  - unfold search_coin. cbn [update_coin_data fold_left initialize_database].
    cbn [execute_upsert empty rows existsb app].
    rewrite (Permutation_length_1_inv
               (Permutation_sym (scan_search_perm E [_]))).
    cbn [filter]. unfold where_clause. cbn [inserted_row Row.name].
    rewrite like_pattern_self. reflexivity.
Qed.

Lemma listed_coin_is_found_witness :
  search_coin rowid_engine
    (update_coin_data rowid_engine Sample.enriched
       [Sample.pepe; Sample.doge_repriced])
    (Coin.name Sample.doge_repriced) <> None
  /\ search_coin rowid_engine
       (update_coin_data rowid_engine Sample.enriched
          [Sample.pepe; Sample.doge_repriced])
       (Coin.symbol Sample.doge_repriced) <> None
  /\ search_coin rowid_engine
       (update_coin_data rowid_engine (initialize_database None)
          [Sample.doge_repriced])
       (Coin.name Sample.doge_repriced)
     = Some {| CoinRecord.name := Coin.name Sample.doge_repriced;
               CoinRecord.symbol := Coin.symbol Sample.doge_repriced;
               CoinRecord.contract := Coin.contract Sample.doge_repriced;
               CoinRecord.price := Some (Coin.price Sample.doge_repriced);
               CoinRecord.holders := None;
               CoinRecord.transfers_24h := None;
               CoinRecord.last_updated :=
                 Some (Coin.last_updated Sample.doge_repriced) |}.
Proof.
  apply (listed_coin_is_found rowid_engine Sample.enriched
           [Sample.pepe; Sample.doge_repriced] Sample.doge_repriced).
  reflexivity.
Defined.

(** ** Case of the query *)

Lemma to_lower_idem (c : ascii) :
  Text.to_lower (Text.to_lower c) = Text.to_lower c.
Proof. destruct c as [[] [] [] [] [] [] [] []]; reflexivity. Qed.

Lemma to_lower_percent (c : ascii) :
  Ascii.eqb (Text.to_lower c) "%" = Ascii.eqb c "%".
Proof. destruct c as [[] [] [] [] [] [] [] []]; reflexivity. Qed.

Lemma to_lower_underscore (c : ascii) :
  Ascii.eqb (Text.to_lower c) "_" = Ascii.eqb c "_".
Proof. destruct c as [[] [] [] [] [] [] [] []]; reflexivity. Qed.

Lemma like_lower_pattern (p t : string) :
  Sqlite.like (Text.lower p) t = Sqlite.like p t.
Proof.
  revert t. induction p as [|c p IH]; intros t; [reflexivity|].
  cbn [Text.lower].
  destruct (Ascii.eqb c "%") eqn:Hp.
  - apply Ascii.eqb_eq in Hp. subst c.
    change (Text.to_lower "%") with "%"%char.
    induction t as [|d t IHt].
    + rewrite !like_percent. now rewrite IH.
    + rewrite (like_percent (Text.lower p)), (like_percent p).
      now rewrite IH, IHt.
  - destruct (Ascii.eqb c "_") eqn:Hu.
    + apply Ascii.eqb_eq in Hu. subst c.
      change (Text.to_lower "_") with "_"%char.
      rewrite !like_underscore. destruct t; [reflexivity|apply IH].
    + rewrite (like_literal c) by (unfold Sqlite.is_wildcard; now rewrite Hp, Hu).
      rewrite like_literal
        by (unfold Sqlite.is_wildcard;
            now rewrite to_lower_percent, to_lower_underscore, Hp, Hu).
      rewrite to_lower_idem. destruct t; [reflexivity|]. now rewrite IH.
Qed.

Lemma lower_app (a b : string) :
  Text.lower (a ++ b) = Text.lower a ++ Text.lower b.
Proof. induction a as [|c a IH]; [reflexivity|]. cbn. now rewrite IH. Qed.

Lemma lower_like_pattern (q : string) :
  Text.lower (like_pattern q) = like_pattern (Text.lower q).
Proof. unfold like_pattern. now rewrite !lower_app. Qed.

(** X9: the lookup does not see the ASCII case of the query: two queries
    that agree up to case select the same rows and return the same
    record. *)
Theorem search_coin_ignores_query_case (E : Engine) (s : Store)
    (q1 q2 : string) :
  Text.lower q1 = Text.lower q2 ->
  (forall r, where_clause q1 r = where_clause q2 r)
  /\ search_coin E s q1 = search_coin E s q2.
Proof.
  intros Hq.
  assert (Hw : forall r, where_clause q1 r = where_clause q2 r).
  { intros r. unfold where_clause.
    rewrite <- (like_lower_pattern (like_pattern q1)),
            <- (like_lower_pattern (like_pattern q2)),
            <- (like_lower_pattern (like_pattern q1) (Row.symbol r)),
            <- (like_lower_pattern (like_pattern q2) (Row.symbol r)).
    now rewrite !lower_like_pattern, Hq. }
  split; [exact Hw|].
  unfold search_coin. now rewrite (filter_ext _ _ Hw).
Qed.

Lemma search_coin_ignores_query_case_witness :
  (forall r, where_clause "dOgE" r = where_clause "DOGE" r)
  /\ search_coin rowid_engine Sample.enriched "dOgE"
     = search_coin rowid_engine Sample.enriched "DOGE".
Proof.
  apply (search_coin_ignores_query_case rowid_engine Sample.enriched
           "dOgE" "DOGE").
  reflexivity.
Defined.

(** ** What the scraper returns *)

Lemma digits_value_nonneg (s : string) (acc : Z) :
  Text.all_chars Text.is_digit s = true ->
  0 <= acc -> 0 <= Text.digits_value acc s.
Proof.
  revert acc. induction s as [|c s IH]; intros acc Hd Hacc; [exact Hacc|].
  cbn in Hd. apply andb_prop in Hd. destruct Hd as [Hc Hs].
  cbn [Text.digits_value]. apply IH; [exact Hs|].
  unfold Text.is_digit in Hc. apply andb_prop in Hc. destruct Hc as [Hlo _].
  apply N.leb_le in Hlo. unfold Text.digit_value. lia.
Qed.

Lemma float_of_decimal_nonneg (s : string) (p : Q) :
  Text.isdigit (Text.remove_char "." s) = true ->
  float_of_decimal s = Some p -> (0 <= p)%Q.
Proof.
  intros Hd. unfold float_of_decimal.
  destruct (Text.count_char "." s <=? 1)%nat; [|discriminate].
  intros H. injection H as <-. unfold Qle. cbn [Qnum Qden].
  rewrite Z.mul_1_r. cbn [Z.mul]. apply digits_value_nonneg; [|lia].
  unfold Text.isdigit in Hd. now destruct (Text.remove_char "." s).
Qed.

Lemma price_of_nonneg (found : option string) (p : Q) :
  price_of found = Some p -> (0 <= p)%Q.
Proof.
  unfold price_of. destruct found as [text|].
  - destruct (Text.remove_char "," (Text.remove_char "$" (Text.strip text)))
      as [|c pt] eqn:Hpt.
    + intros H. injection H as <-. apply Qle_refl.
    + destruct (Text.isdigit (Text.remove_char "." (String c pt))) eqn:Hd.
      * now apply float_of_decimal_nonneg.
      * intros H. injection H as <-. apply Qle_refl.
  - intros H. injection H as <-. apply Qle_refl.
Qed.

Lemma appended_record (now : Z) (e : Element) (coin : Coin.t) :
  In coin (appended now e) ->
  Coin.last_updated coin = now /\ (0 <= Coin.price coin)%Q.
Proof.
  unfold appended, process_element.
  destruct (contract_element e) as [found|]; cbn [Py.bind]; [|easy].
  destruct (price_of _) as [p|] eqn:Hp; cbn [Py.bind]; [|easy].
  destruct (Text.startswith "0x" (contract_of found)); [|easy].
  intros [<-|[]]. cbn. split; [reflexivity|].
  now apply price_of_nonneg in Hp.
Qed.

Lemma appended_at_most_one (now : Z) (e : Element) :
  (List.length (appended now e) <= 1)%nat.
Proof.
  unfold appended. destruct (process_element now e) as [[coin|]|]; cbn; lia.
Qed.

Lemma flat_map_length_bound {A B : Type} (f : A -> list B) (l : list A) :
  (forall a, (List.length (f a) <= 1)%nat) ->
  (List.length (flat_map f l) <= List.length l)%nat.
Proof.
  intros H. induction l as [|a l IH]; [cbn; lia|].
  cbn [flat_map]. rewrite length_app. specialize (H a). cbn [List.length]. lia.
Qed.

Lemma scraped_records_stamp (page : Fetched) (now : Z) (coin : Coin.t) :
  In coin (scrape_grafun page now) -> Coin.last_updated coin = now.
Proof.
  unfold scrape_grafun. destruct page as [| |soup]; try easy.
  destruct (select_elements soup) as [|e l]; [easy|].
  intros H. apply in_flat_map in H. destruct H as [e' [_ H]].
  now apply appended_record in H.
Qed.

(** X10: every record the scraper returns carries the clock reading of the
    scrape as [last_updated] and a price that is not negative, and there is
    at most one record per selected element. *)
Theorem scraped_records (page : Fetched) (now : Z) :
  (forall coin,
      In coin (scrape_grafun page now) ->
      Coin.last_updated coin = now /\ (0 <= Coin.price coin)%Q)
  /\ (forall soup,
        page = Parsed soup ->
        (List.length (scrape_grafun page now)
         <= List.length (select_elements soup))%nat).
Proof.
  split.
  - intros coin. unfold scrape_grafun. destruct page as [| |soup]; try easy.
    destruct (select_elements soup) as [|e l]; [easy|].
    intros H. apply in_flat_map in H. destruct H as [e' [_ H]].
    now apply appended_record in H.
  - intros soup ->. unfold scrape_grafun.
    destruct (select_elements soup) as [|e l] eqn:Hsel; [cbn; lia|].
    apply flat_map_length_bound. apply appended_at_most_one.
Qed.

Lemma last_segment_spec (s : string) :
  has_slash (last_segment s) = false
  /\ (exists pre, s = pre ++ last_segment s)
  /\ (has_slash s = false -> last_segment s = s).
Proof.
  induction s as [|c s (IH1 & [pre IH2] & IH3)].
  - repeat split. now exists "".
  - cbn [last_segment has_slash]. destruct (Ascii.eqb c "/") eqn:Hc.
    + repeat split; [exact IH1| |discriminate].
      exists (String c pre). cbn. now rewrite <- IH2.
    + destruct (has_slash s) eqn:Hs.
      * repeat split; [exact IH1| |discriminate].
        exists (String c pre). cbn. now rewrite <- IH2.
      * repeat split.
        -- cbn [has_slash]. now rewrite Hc, Hs.
        -- now exists "".
Qed.

(** The cut is at the last slash: what stands before the kept part ends
    with a slash, and is empty when the text has none. *)
Lemma last_segment_cut (s : string) :
  exists pre,
    s = pre ++ last_segment s
    /\ (has_slash s = true -> exists before, pre = before ++ "/")
    /\ (has_slash s = false -> pre = "").
Proof.
  induction s as [|c s [pre (IH & IHt & IHf)]].
  - exists "". repeat split. discriminate.
  - cbn [last_segment has_slash]. destruct (Ascii.eqb c "/") eqn:Hc.
    + apply Ascii.eqb_eq in Hc. subst c.
      exists (String "/" pre). split; [cbn; now rewrite <- IH|].
      split; [|discriminate]. intros _.
      destruct (has_slash s) eqn:Hs.
      * destruct (IHt eq_refl) as [before Hb]. exists (String "/" before).
        now rewrite Hb.
      * rewrite (IHf eq_refl). now exists "".
    + cbn [orb]. destruct (has_slash s) eqn:Hs.
      * exists (String c pre). split; [cbn; now rewrite <- IH|].
        split; [|discriminate]. intros _.
        destruct (IHt eq_refl) as [before Hb]. exists (String c before).
        now rewrite Hb.
      * exists "". repeat split. discriminate.
Qed.

(** X11: a contract read from a link's [href] is the part of the address
    after its last slash: the address is some text, empty when the address
    has no slash and ending with a slash otherwise, followed by the
    contract, and the contract holds no slash. *)
Theorem contract_from_href (a : Anchor) (h : string) :
  href a = Some h ->
  has_slash (contract_of (Some a)) = false
  /\ (exists pre,
        h = pre ++ contract_of (Some a)
        /\ (has_slash h = true -> exists before, pre = before ++ "/")
        /\ (has_slash h = false -> pre = ""))
  /\ (has_slash h = false -> contract_of (Some a) = h).
Proof.
  intros Hh. unfold contract_of. rewrite Hh.
  destruct (last_segment_spec h) as (Hno & _ & Hid).
  split; [exact Hno|]. split; [apply last_segment_cut | exact Hid].
Qed.

Lemma contract_from_href_witness :
  has_slash (contract_of
               (Some {| href := Some "https://bscscan.com/token/0xAAA";
                        anchor_text := "view" |})) = false
  /\ (exists pre,
        "https://bscscan.com/token/0xAAA"
        = pre ++ contract_of
                   (Some {| href := Some "https://bscscan.com/token/0xAAA";
                            anchor_text := "view" |})
        /\ (has_slash "https://bscscan.com/token/0xAAA" = true ->
            exists before, pre = before ++ "/")
        /\ (has_slash "https://bscscan.com/token/0xAAA" = false -> pre = ""))
  /\ (has_slash "https://bscscan.com/token/0xAAA" = false ->
      contract_of (Some {| href := Some "https://bscscan.com/token/0xAAA";
                           anchor_text := "view" |})
      = "https://bscscan.com/token/0xAAA").
Proof.
  apply (contract_from_href
           {| href := Some "https://bscscan.com/token/0xAAA";
              anchor_text := "view" |}
           "https://bscscan.com/token/0xAAA").
  reflexivity.
Defined.

(** The cut on sample addresses. *)
Example contract_from_href_samples :
  map last_segment
      ["https://bscscan.com/token/0xAAA"; "0xBBB"; "/token/0xCCC/"; "a/b"]
  = ["0xAAA"; "0xBBB"; ""; "b"].
Proof. reflexivity. Qed.

(** ** The calls of a metrics pass *)

Lemma written_iterations (w : World) (l : list string) :
  Trace.written (flat_map (iteration_events w) l) = l.
Proof.
  induction l as [|c l IH]; [reflexivity|].
  cbn [flat_map]. unfold Trace.written in *. rewrite flat_map_app, IH.
  unfold iteration_events, process_contract.
  now destruct (write_raises w c).
Qed.

Lemma get_all_contracts_perm (E : Engine) (s : Store) :
  Permutation (get_all_contracts E s) (contracts s).
Proof.
  unfold get_all_contracts, contracts.
  apply Permutation_map. apply scan_contracts_perm.
Qed.

(** X12: a pass visits the stored contracts, each row once: the contracts
    it queries are the stored ones up to order, distinct when the stored
    ones are, and it calls the store exactly for those, in the same
    order. *)
Theorem pass_visits_each_contract_once (E : Engine) (w : World) (s : Store) :
  Permutation (visited (snd (update_blockchain_data E w s))) (contracts s)
  /\ Trace.written (snd (update_blockchain_data E w s))
     = visited (snd (update_blockchain_data E w s))
  /\ (unique_contracts s ->
      NoDup (visited (snd (update_blockchain_data E w s)))).
Proof.
  rewrite update_blockchain_data_events, visited_iterations,
    written_iterations.
  repeat split.
  - apply get_all_contracts_perm.
  - intros Hu. unfold unique_contracts in Hu.
    apply (Permutation_NoDup (Permutation_sym (get_all_contracts_perm E s)) Hu).
Qed.

Lemma rate_limited_iterations (w : World) (l : list string) :
  Trace.rate_limited (flat_map (iteration_events w) l) = true.
Proof.
  induction l as [|c l IH]; [reflexivity|].
  cbn [flat_map]. unfold iteration_events, process_contract.
  destruct (write_raises w c); cbn; exact IH.
Qed.

Lemma queries_iterations (w : World) (l : list string) :
  Trace.queries (flat_map (iteration_events w) l) = (2 * List.length l)%nat.
Proof.
  induction l as [|c l IH]; [reflexivity|].
  cbn [flat_map]. unfold Trace.queries in *.
  rewrite filter_app, length_app, IH.
  unfold iteration_events, process_contract.
  destruct (write_raises w c); cbn; lia.
Qed.

Lemma slept_ms_app (a b : list Event) :
  Trace.slept_ms (a ++ b) = Trace.slept_ms a + Trace.slept_ms b.
Proof.
  induction a as [|e a IH]; [reflexivity|].
  cbn [app Trace.slept_ms]. destruct e; rewrite IH; lia.
Qed.

Lemma slept_iteration (w : World) (c : string) :
  Trace.slept_ms (iteration_events w c) = 500.
Proof.
  unfold iteration_events, process_contract.
  now destruct (write_raises w c).
Qed.

Lemma slept_iterations (w : World) (l : list string) :
  Trace.slept_ms (flat_map (iteration_events w) l)
  = 500 * Z.of_nat (List.length l).
Proof.
  induction l as [|c l IH]; [reflexivity|].
  cbn [flat_map List.length]. rewrite slept_ms_app, slept_iteration, IH. lia.
Qed.

Lemma get_all_contracts_length (E : Engine) (s : Store) :
  List.length (get_all_contracts E s) = List.length (rows s).
Proof.
  unfold get_all_contracts. rewrite length_map.
  apply Permutation_length. apply scan_contracts_perm.
Qed.

(** X13: a pass respects the rate limit: every query of the explorer is
    directly followed by a sleep of 250 ms, a pass over n rows makes 2n
    queries and sleeps n times 500 ms, also when fetches fail or writes
    raise. *)
Theorem pass_is_rate_limited (E : Engine) (w : World) (s : Store) :
  Trace.rate_limited (snd (update_blockchain_data E w s)) = true
  /\ Trace.queries (snd (update_blockchain_data E w s))
     = (2 * List.length (rows s))%nat
  /\ Trace.slept_ms (snd (update_blockchain_data E w s))
     = 500 * Z.of_nat (List.length (rows s)).
Proof.
  rewrite update_blockchain_data_events.
  rewrite rate_limited_iterations, queries_iterations, slept_iterations,
    get_all_contracts_length.
  repeat split.
Qed.



(** ** The store under the scheduler *)

Import Main.

Lemma scraped_coin_ok (page : Fetched) (now : Z) :
  Forall coin_ok (scrape_grafun page now).
Proof.
  apply Forall_forall. intros x Hx. split.
  - now apply (scraped_starts_with_0x page now).
  - unfold scrape_grafun in Hx. destruct page as [| |soup]; try easy.
    destruct (select_elements soup) as [|e l]; [easy|].
    apply in_flat_map in Hx. destruct Hx as [e' [_ H]].
    now apply appended_record in H.
Qed.

Lemma set_listing_ok (x : Coin.t) (r : Row.t) :
  coin_ok x -> row_ok r -> row_ok (set_listing x r).
Proof.
  intros [_ Hp] (H0x & _ & _ & Hm). unfold row_ok. cbn.
  repeat split; try assumption; try apply Hm.
  - now exists (Coin.price x).
  - discriminate.
Qed.

Lemma inserted_row_ok (rowid : Z) (x : Coin.t) :
  coin_ok x -> row_ok (inserted_row rowid x).
Proof.
  intros [H0x Hp]. unfold row_ok. cbn. repeat split; try assumption.
  - now exists (Coin.price x).
  - discriminate.
Qed.

Lemma execute_upsert_rows_ok (E : Engine) (s : Store) (x : Coin.t) :
  coin_ok x -> Forall row_ok (rows s) ->
  Forall row_ok (rows (execute_upsert E s x)).
Proof.
  intros Hx Hs. unfold execute_upsert.
  destruct (existsb (has_contract (Coin.contract x)) (rows s)); cbn [rows].
  - apply Forall_forall. intros r Hr. apply in_map_iff in Hr.
    destruct Hr as [r0 [<- Hr0]]. rewrite Forall_forall in Hs.
    destruct (has_contract (Coin.contract x) r0);
      [apply set_listing_ok|]; auto.
  - apply Forall_app. split; [exact Hs|].
    constructor; [now apply inserted_row_ok | constructor].
Qed.

Lemma update_coin_data_rows_ok (E : Engine) (batch : list Coin.t) (s : Store) :
  Forall coin_ok batch -> Forall row_ok (rows s) ->
  Forall row_ok (rows (update_coin_data E s batch)).
Proof.
  revert s. induction batch as [|x batch IH]; intros s Hb Hs; [exact Hs|].
  inversion Hb as [|? ? Hx Hb']; subst.
  apply IH; [exact Hb'|]. now apply execute_upsert_rows_ok.
Qed.

Lemma run_scraper_is_upsert (E : Engine) (page : Fetched) (now : Z)
    (s : Store) :
  run_scraper E page now s = update_coin_data E s (scrape_grafun page now).
Proof. unfold run_scraper. now destruct (scrape_grafun page now). Qed.

Lemma run_scraper_consistent (E : Engine) (page : Fetched) (now : Z)
    (s : Store) :
  consistent s -> consistent (run_scraper E page now s).
Proof.
  intros (Hu & Hid & Hok). rewrite run_scraper_is_upsert. repeat split.
  - now apply update_coin_data_unique.
  - now apply update_coin_data_ids.
  - apply update_coin_data_rows_ok; [apply scraped_coin_ok | exact Hok].
Qed.

Lemma after_pass_ok (w : World) (r : Row.t) :
  row_ok r -> row_ok (after_pass w r).
Proof.
  intros Hr. unfold after_pass.
  destruct (write_raises w (Row.contract r)); [exact Hr|].
  destruct Hr as (H0x & Hp & _ & _). unfold row_ok. cbn.
  repeat split; try assumption; discriminate.
Qed.

Lemma after_pass_id (w : World) (r : Row.t) :
  Row.id (after_pass w r) = Row.id r.
Proof. unfold after_pass. now destruct (write_raises w (Row.contract r)). Qed.

Lemma metrics_pass_consistent (E : Engine) (w : World) (s : Store) :
  consistent s -> consistent (fst (update_blockchain_data E w s)).
Proof.
  intros (Hu & Hid & Hok). unfold consistent, unique_contracts, contracts.
  rewrite update_blockchain_data_rows, !map_map.
  rewrite (map_ext _ _ (after_pass_contract w)).
  rewrite (map_ext _ _ (after_pass_id w)).
  repeat split; try assumption.
  apply Forall_forall. intros r Hr. apply in_map_iff in Hr.
  destruct Hr as [r0 [<- Hr0]]. apply after_pass_ok.
  rewrite Forall_forall in Hok. now apply Hok.
Qed.

Lemma run_job_consistent (E : Engine) (j : Job) (s : Store) :
  consistent s -> consistent (run_job E s j).
Proof.
  destruct j as [page now|w]; cbn [run_job].
  - apply run_scraper_consistent.
  - apply metrics_pass_consistent.
Qed.

Lemma scheduler_thread_consistent (E : Engine) (page : Fetched) (now : Z)
    (w : World) (jobs : list Job) (s : Store) :
  consistent s -> consistent (scheduler_thread E page now w jobs s).
Proof.
  intros Hs. unfold scheduler_thread.
  assert (H0 : consistent (initial_collection E page now w s)).
  { unfold initial_collection.
    now apply metrics_pass_consistent, run_scraper_consistent. }
  revert H0. generalize (initial_collection E page now w s).
  induction jobs as [|j jobs IH]; intros s0 H0; [exact H0|].
  cbn [fold_left]. apply IH. now apply run_job_consistent.
Qed.

Lemma empty_consistent : consistent (initialize_database None).
Proof. repeat split; constructor. Qed.

(** X15: whatever the two scheduled jobs meet and in whatever order they
    run, the table stays consistent: contracts and ids are distinct, every
    contract starts with 0x, every row has a price that is not negative
    and a [last_updated] that is not NULL, and [holders] and
    [transfers_24h] are NULL together.  This holds from a new database, and
    from any stored table that was consistent. *)
Theorem scheduler_keeps_table_consistent (E : Engine) (page : Fetched)
    (now : Z) (w : World) (jobs : list Job) :
  consistent (main E None page now w jobs)
  /\ (forall s, consistent s -> consistent (main E (Some s) page now w jobs)).
Proof.
  split.
  - apply scheduler_thread_consistent. apply empty_consistent.
  - intros s Hs. now apply scheduler_thread_consistent.
Qed.

Lemma filter_after_pass (w : World) (c : string) (l : list Row.t) :
  filter (has_contract c) (map (after_pass w) l)
  = map (after_pass w) (filter (has_contract c) l).
Proof.
  induction l as [|r l IH]; [reflexivity|].
  cbn [map filter]. unfold has_contract at 1. rewrite after_pass_contract.
  fold (has_contract c r). destruct (has_contract c r); cbn [map]; now rewrite IH.
Qed.

(** On a new database every row of a batch is one the batch inserted. *)
Lemma rows_on_new_database (E : Engine) (coins : list Coin.t) (r : Row.t) :
  In r (rows (update_coin_data E (initialize_database None) coins)) ->
  Row.holders r = None /\ Row.transfers_24h r = None.
Proof.
  intros Hr.
  destruct (update_coin_data_rows E (initialize_database None) coins)
    as [ins [Hrows Hins]].
  rewrite Hrows in Hr. cbn [initialize_database empty rows map app] in Hr.
  rewrite Forall_forall in Hins.
  destruct (Hins r Hr) as (Hh & Ht & _). now split.
Qed.

(** X16: the initial data collection on a new database leaves, for every
    contract the scrape returned, exactly one row; it carries the name,
    symbol and price of the last record scraped for the contract; when the
    write for it went through it carries the holders, the transfer count
    and the time stamp of the metrics pass, and when the write raised it
    has no metrics and the time stamp of the scrape. *)
Theorem initial_collection_enriches (E : Engine) (page : Fetched) (now : Z)
    (w : World) (c : string) :
  In c (map Coin.contract (scrape_grafun page now)) ->
  exists r x,
    filter (has_contract c)
           (rows (initial_collection E page now w (initialize_database None)))
    = [r]
    /\ last_listing (scrape_grafun page now) c = Some x
    /\ Row.name r = Coin.name x
    /\ Row.symbol r = Coin.symbol x
    /\ Row.price r = Some (Coin.price x)
    /\ (write_raises w c = false ->
        Row.holders r = Some (holders_of w c)
        /\ Row.transfers_24h r = Some (transfers_of w c)
        /\ Row.last_updated r = Some (clock_at_write w c))
    /\ (write_raises w c = true ->
        Row.holders r = None
        /\ Row.transfers_24h r = None
        /\ Row.last_updated r = Some now).
Proof.
  intros Hc. unfold initial_collection.
  rewrite update_blockchain_data_rows, filter_after_pass, run_scraper_is_upsert.
  pose proof (scraped_records_stamp page now) as Hstamp.
  set (coins := scrape_grafun page now) in *.
  set (s1 := update_coin_data E (initialize_database None) coins).
  assert (Hu : unique_contracts s1).
  { apply update_coin_data_unique. constructor. }
  assert (Hin : In c (contracts s1)) by now apply update_coin_data_adds.
  destruct (unique_row_of_contract _ _ Hu Hin) as [r1 Hr1].
  assert (Hr1in : In r1 (filter (has_contract c) (rows s1)))
    by (rewrite Hr1; now left).
  apply filter_In in Hr1in. destruct Hr1in as [Hr1rows Hr1c].
  apply has_contract_true in Hr1c.
  destruct (last_listing coins c) as [x|] eqn:Hlast;
    [|apply last_listing_none in Hlast; contradiction].
  pose proof (update_coin_data_refreshed E _ coins r1 Hr1rows) as Hfix.
  unfold refresh in Hfix. rewrite Hr1c, Hlast in Hfix.
  destruct (rows_on_new_database E coins r1 Hr1rows) as [Hh Ht].
  assert (Hx : Coin.last_updated x = now).
  { apply Hstamp. now apply last_listing_contract in Hlast. }
  exists (after_pass w r1), x. rewrite Hr1. split; [reflexivity|].
  split; [reflexivity|].
  unfold after_pass. rewrite Hr1c.
  destruct (write_raises w c).
  - rewrite <- Hfix at 1 2 3 6. cbn.
    repeat split; try discriminate; try assumption.
    rewrite <- Hfix. cbn. now rewrite Hx.
  - cbn. rewrite <- Hfix. repeat split; discriminate.
Qed.

Lemma initial_collection_enriches_witness :
  exists r x,
    filter (has_contract "0xAAA")
           (rows (initial_collection rowid_engine Listing.page 1000
                    Sample.write_fails (initialize_database None)))
    = [r]
    /\ last_listing (scrape_grafun Listing.page 1000) "0xAAA" = Some x
    /\ Row.name r = Coin.name x
    /\ Row.symbol r = Coin.symbol x
    /\ Row.price r = Some (Coin.price x)
    /\ (write_raises Sample.write_fails "0xAAA" = false ->
        Row.holders r = Some (holders_of Sample.write_fails "0xAAA")
        /\ Row.transfers_24h r = Some (transfers_of Sample.write_fails "0xAAA")
        /\ Row.last_updated r
           = Some (clock_at_write Sample.write_fails "0xAAA"))
    /\ (write_raises Sample.write_fails "0xAAA" = true ->
        Row.holders r = None
        /\ Row.transfers_24h r = None
        /\ Row.last_updated r = Some 1000).
Proof.
  apply (initial_collection_enriches rowid_engine Listing.page 1000
           Sample.write_fails "0xAAA").
  left. reflexivity.
Defined.

(** The initial collection on the sample page when the write for 0xAAA
    raises: both contracts have their row, 0xBBB with its metrics. *)
Example cold_start_with_failed_write :
  map (fun r => (Row.name r, Row.contract r, Row.holders r,
                 Row.last_updated r))
      (rows (initial_collection rowid_engine Listing.page 1000
               Sample.write_fails (initialize_database None)))
  = [("Doge2", "0xAAA", None, Some 1000);
     ("Pepe", "0xBBB", Some 3, Some 88001)].
Proof. vm_compute. reflexivity. Qed.

(** The cold start on the sample page. *)
Example cold_start :
  map (fun r => (Row.name r, Row.contract r, Row.price r, Row.holders r))
      (rows (main rowid_engine None Listing.page 1000 Sample.holders_down []))
  = [("Doge2", "0xAAA", Some (1 # 1000)%Q, Some 0);
     ("Pepe", "0xBBB", Some (5 # 100)%Q, Some 3)].
Proof. vm_compute. reflexivity. Qed.

(** ** The number format of the bot *)

Ltac divlia := zify; Z.to_euclidean_division_equations; lia.

Lemma digit_code (d : N) : (d < 10)%N -> N_of_ascii (Bot.digit d) = (48 + d)%N.
Proof. intros H. unfold Bot.digit. apply N_ascii_embedding. lia. Qed.

Lemma digit_is_digit (d : N) :
  (d < 10)%N ->
  Text.is_digit (Bot.digit d) = true
  /\ Text.digit_value (Bot.digit d) = Z.of_N d.
Proof.
  intros H. unfold Text.is_digit, Text.digit_value.
  rewrite (digit_code d H). split; [|lia].
  apply andb_true_intro. split; apply N.leb_le; lia.
Qed.

Lemma is_digit_plain (c : ascii) :
  Text.is_digit c = true ->
  Ascii.eqb c "," = false /\ Text.is_space c = false
  /\ Ascii.eqb c "_" = false /\ c <> "+"%char /\ c <> "-"%char.
Proof.
  destruct c as [[] [] [] [] [] [] [] []]; cbn; intros H;
    try discriminate H; repeat split; discriminate.
Qed.

Lemma digits_only_app (a b : string) :
  Bot.digits_only a -> Bot.digits_only b -> Bot.digits_only (a ++ b).
Proof.
  unfold Bot.digits_only. induction a as [|c a IH]; intros Ha Hb; [exact Hb|].
  cbn in *. apply andb_prop in Ha. destruct Ha as [Hc Ha].
  now rewrite Hc, IH.
Qed.

Lemma remove_comma_digits (s : string) :
  Bot.digits_only s -> Text.remove_char "," s = s.
Proof.
  unfold Bot.digits_only. induction s as [|c s IH]; intros H; [reflexivity|].
  cbn in *. apply andb_prop in H. destruct H as [Hc Hs].
  destruct (is_digit_plain c Hc) as [Hcomma _]. now rewrite Hcomma, IH.
Qed.

Lemma remove_char_app (c : ascii) (a b : string) :
  Text.remove_char c (a ++ b) = Text.remove_char c a ++ Text.remove_char c b.
Proof.
  induction a as [|d a IH]; [reflexivity|].
  cbn. destruct (Ascii.eqb d c); cbn; now rewrite IH.
Qed.

Lemma digits_value_app (a b : string) (acc : Z) :
  Text.digits_value acc (a ++ b)
  = Text.digits_value (Text.digits_value acc a) b.
Proof.
  revert acc. induction a as [|c a IH]; intros acc; [reflexivity|].
  cbn. apply IH.
Qed.

Lemma three_digits_spec (n : N) (acc : Z) :
  (n < 1000)%N ->
  Bot.digits_only (Bot.three_digits n)
  /\ Text.digits_value acc (Bot.three_digits n) = 1000 * acc + Z.of_N n.
Proof.
  intros H. unfold Bot.three_digits, Bot.digits_only.
  destruct (digit_is_digit (n / 100) ltac:(divlia)) as [H1 V1].
  destruct (digit_is_digit ((n / 10) mod 10) ltac:(divlia)) as [H2 V2].
  destruct (digit_is_digit (n mod 10) ltac:(divlia)) as [H3 V3].
  split.
  - cbn [Text.all_chars]. now rewrite H1, H2, H3.
  - cbn [Text.digits_value]. rewrite V1, V2, V3. divlia.
Qed.

Lemma leading_digits_spec (n : N) :
  (n < 1000)%N ->
  Bot.digits_only (Bot.leading_digits n)
  /\ Text.digits_value 0 (Bot.leading_digits n) = Z.of_N n
  /\ (1 <= String.length (Bot.leading_digits n) <= 3)%nat.
Proof.
  intros H. unfold Bot.leading_digits.
  destruct (N.ltb_spec n 10) as [H10|H10].
  - destruct (digit_is_digit n H10) as [H1 V1]. unfold Bot.digits_only.
    cbn [Text.all_chars Text.digits_value String.length].
    rewrite H1, V1. repeat split; lia.
  - destruct (N.ltb_spec n 100) as [H100|H100].
    + destruct (digit_is_digit (n / 10) ltac:(divlia)) as [H1 V1].
      destruct (digit_is_digit (n mod 10) ltac:(divlia)) as [H2 V2].
      unfold Bot.digits_only.
      cbn [Text.all_chars Text.digits_value String.length].
      rewrite H1, H2, V1, V2. repeat split; try lia. divlia.
    + destruct (three_digits_spec n 0 H) as [Hd Hv].
      split; [exact Hd|]. split; [rewrite Hv; lia | cbn; lia].
Qed.

Lemma append_nil_r_local (s : string) : s ++ "" = s.
Proof. induction s as [|c s IH]; [reflexivity|]. cbn. now rewrite IH. Qed.

Lemma append_assoc_local (a b c : string) : (a ++ b) ++ c = a ++ b ++ c.
Proof. induction a as [|x a IH]; [reflexivity|]. cbn. now rewrite IH. Qed.

Lemma comma_groups_app (a b : string) :
  Bot.comma_groups a = true ->
  Bot.comma_groups (a ++ b) = Bot.comma_groups b.
Proof.
  remember (String.length a) as k eqn:Hk. revert a Hk.
  induction k as [k IH] using lt_wf_ind. intros a Hk Ha.
  destruct a as [|c0 [|c1 [|c2 [|c3 rest]]]]; try discriminate Ha;
    [reflexivity|].
  cbn [Bot.comma_groups] in Ha. apply andb_prop in Ha. destruct Ha as [Hh Hr].
  cbn [String.append Bot.comma_groups]. rewrite Hh. cbn [andb].
  apply (IH (String.length rest)); [subst k; cbn; lia | reflexivity | exact Hr].
Qed.

Lemma comma_groups_three (n : N) :
  (n < 1000)%N -> Bot.comma_groups ("," ++ Bot.three_digits n) = true.
Proof.
  intros H.
  destruct (digit_is_digit (n / 100) ltac:(divlia)) as [H1 _].
  destruct (digit_is_digit ((n / 10) mod 10) ltac:(divlia)) as [H2 _].
  destruct (digit_is_digit (n mod 10) ltac:(divlia)) as [H3 _].
  unfold Bot.three_digits.
  change ("," ++ ?s) with (String "," s).
  cbn [Bot.comma_groups]. now rewrite H1, H2, H3.
Qed.

(** The groups of [n], given fuel for them. *)
Lemma grouped_spec (fuel : nat) (n : N) :
  Z.of_N n < 2 ^ Z.of_nat fuel ->
  (exists lead tail,
      Bot.grouped fuel n = lead ++ tail
      /\ Bot.digits_only lead
      /\ (1 <= String.length lead <= 3)%nat
      /\ Bot.comma_groups tail = true)
  /\ Bot.digits_only (Text.remove_char "," (Bot.grouped fuel n))
  /\ Text.remove_char "," (Bot.grouped fuel n) <> ""
  /\ Text.digits_value 0 (Text.remove_char "," (Bot.grouped fuel n))
     = Z.of_N n.
Proof.
  revert n. induction fuel as [|fuel IH]; intros n Hn.
  - assert (Hlt : (n < 1000)%N) by (cbn in Hn; lia).
    destruct (leading_digits_spec n Hlt) as (Hd & Hv & Hl).
    cbn [Bot.grouped]. rewrite (remove_comma_digits _ Hd). repeat split; auto.
    + exists (Bot.leading_digits n), "". rewrite append_nil_r_local.
      repeat split; auto; lia.
    + intros He. rewrite He in Hl. cbn in Hl. lia.
  - cbn [Bot.grouped]. destruct (N.ltb_spec n 1000) as [Hlt|Hge].
    + destruct (leading_digits_spec n Hlt) as (Hd & Hv & Hl).
      rewrite (remove_comma_digits _ Hd). repeat split; auto.
      * exists (Bot.leading_digits n), "". rewrite append_nil_r_local.
        repeat split; auto; lia.
      * intros He. rewrite He in Hl. cbn in Hl. lia.
    + assert (Hq : Z.of_N (n / 1000) < 2 ^ Z.of_nat fuel).
      { rewrite Nat2Z.inj_succ, Z.pow_succ_r in Hn by lia.
        assert (0 < 2 ^ Z.of_nat fuel) by (apply Z.pow_pos_nonneg; lia).
        divlia. }
      assert (Hr : (n mod 1000 < 1000)%N) by divlia.
      destruct (IH (n / 1000)%N Hq)
        as ([lead [tail (Hg & Hld & Hll & Htl)]] & Hd & Hne & Hv).
      destruct (three_digits_spec (n mod 1000) (Z.of_N (n / 1000)) Hr)
        as [Hd3 Hv3].
      assert (Hrm : Text.remove_char ","
                      (Bot.grouped fuel (n / 1000) ++ ","
                       ++ Bot.three_digits (n mod 1000))
                    = Text.remove_char "," (Bot.grouped fuel (n / 1000))
                      ++ Bot.three_digits (n mod 1000)).
      { rewrite remove_char_app. f_equal.
        change ("," ++ Bot.three_digits (n mod 1000))
          with (String "," (Bot.three_digits (n mod 1000))).
        cbn [Text.remove_char]. rewrite Ascii.eqb_refl.
        now apply remove_comma_digits. }
      rewrite Hrm. repeat split.
      * exists lead, (tail ++ "," ++ Bot.three_digits (n mod 1000)).
        rewrite Hg. repeat split; auto; try lia.
        -- now rewrite append_assoc_local.
        -- rewrite (comma_groups_app _ _ Htl). now apply comma_groups_three.
      * now apply digits_only_app.
      * intros He. destruct (Text.remove_char "," (Bot.grouped fuel (n / 1000)));
          [now apply Hne | discriminate He].
      * rewrite digits_value_app, Hv, Hv3. divlia.
Qed.

Lemma int_digits_of_digits (s : string) (after_digit : bool) (acc : Z) :
  Bot.digits_only s -> s <> "" ->
  Py.int_digits after_digit acc s = Some (Text.digits_value acc s).
Proof.
  unfold Bot.digits_only. revert after_digit acc.
  induction s as [|c s IH]; intros b acc Hd Hne; [contradiction|].
  cbn in Hd. apply andb_prop in Hd. destruct Hd as [Hc Hs].
  cbn [Py.int_digits Text.digits_value]. rewrite Hc.
  destruct s as [|d s]; [reflexivity|]. now apply IH.
Qed.

Lemma all_chars_app (p : ascii -> bool) (a b : string) :
  Text.all_chars p (a ++ b) = (Text.all_chars p a && Text.all_chars p b)%bool.
Proof.
  induction a as [|c a IH]; [reflexivity|].
  cbn. now rewrite IH, andb_assoc.
Qed.

Lemma rev_string_app (a b : string) :
  Text.rev_string (a ++ b) = Text.rev_string b ++ Text.rev_string a.
Proof.
  induction a as [|c a IH]; cbn.
  - now rewrite append_nil_r_local.
  - now rewrite IH, append_assoc_local.
Qed.

Lemma rev_string_involutive (s : string) :
  Text.rev_string (Text.rev_string s) = s.
Proof.
  induction s as [|c s IH]; [reflexivity|].
  cbn. now rewrite rev_string_app, IH.
Qed.

Lemma no_space_rev (s : string) :
  Bot.no_space s -> Bot.no_space (Text.rev_string s).
Proof.
  unfold Bot.no_space. induction s as [|c s IH]; intros H; [reflexivity|].
  cbn in *. apply andb_prop in H. destruct H as [Hc Hs].
  rewrite all_chars_app, (IH Hs). cbn. now rewrite Hc.
Qed.

Lemma lstrip_no_space (s : string) : Bot.no_space s -> Text.lstrip s = s.
Proof.
  unfold Bot.no_space. destruct s as [|c s]; [reflexivity|].
  cbn. intros H. apply andb_prop in H. destruct H as [Hc _].
  apply negb_true_iff in Hc. now rewrite Hc.
Qed.

Lemma strip_no_space (s : string) : Bot.no_space s -> Text.strip s = s.
Proof.
  intros H. unfold Text.strip.
  rewrite (lstrip_no_space s H).
  rewrite (lstrip_no_space _ (no_space_rev s H)).
  apply rev_string_involutive.
Qed.

Lemma digits_no_space (s : string) : Bot.digits_only s -> Bot.no_space s.
Proof.
  unfold Bot.digits_only, Bot.no_space.
  induction s as [|c s IH]; intros H; [reflexivity|].
  cbn in *. apply andb_prop in H. destruct H as [Hc Hs].
  destruct (is_digit_plain c Hc) as (_ & Hsp & _). now rewrite Hsp, IH.
Qed.

Lemma size_nat_bound (m : N) : Z.of_N m < 2 ^ Z.of_nat (N.size_nat m).
Proof.
  destruct m as [|p]; [reflexivity|].
  cbn [N.size_nat Z.of_N]. now apply Zpower2_Psize.
Qed.

(** X17: the number format reads back: with the commas removed, Python's
    [int] reads the text [format_number] gives for an integer as that
    integer; and the text is an optional minus sign, one to three digits,
    and then groups of a comma and three digits. *)
Theorem format_number_reads_back (n : Z) :
  Py.int_of_str (Text.remove_char "," (Bot.format_number (Some n))) = Some n
  /\ exists lead tail,
       Bot.format_number (Some n)
       = (if (n <? 0)%Z then "-" else "") ++ lead ++ tail
       /\ Bot.digits_only lead
       /\ (1 <= String.length lead <= 3)%nat
       /\ Bot.comma_groups tail = true.
Proof.
  cbn [Bot.format_number]. unfold Bot.format_int.
  destruct (grouped_spec (N.size_nat (Z.abs_N n)) (Z.abs_N n)
              (size_nat_bound _))
    as ([lead [tail (Hg & Hld & Hll & Htl)]] & Hd & Hne & Hv).
  set (body := Bot.grouped (N.size_nat (Z.abs_N n)) (Z.abs_N n)) in *.
  assert (Hplain : Py.int_digits false 0 (Text.remove_char "," body)
                   = Some (Z.of_N (Z.abs_N n))).
  { rewrite <- Hv. now apply int_digits_of_digits. }
  destruct (Z.ltb_spec n 0) as [Hneg|Hpos].
  - split.
    + cbn [Text.remove_char]. change (Ascii.eqb "-" ",") with false.
      cbn [Py.int_of_str]. unfold Py.int_of_str.
      rewrite strip_no_space.
      * rewrite Hplain. cbn [option_map]. f_equal. lia.
      * unfold Bot.no_space. cbn [Text.all_chars]. apply (digits_no_space _ Hd).
    + exists lead, tail. rewrite Hg. now repeat split.
  - split.
    + unfold Py.int_of_str. rewrite strip_no_space by now apply digits_no_space.
      destruct (Text.remove_char "," body) as [|c rest] eqn:Hb;
        [contradiction|].
      unfold Bot.digits_only in Hd. cbn in Hd. apply andb_prop in Hd.
      destruct Hd as [Hc _].
      destruct (is_digit_plain c Hc) as (_ & _ & _ & Hplus & Hminus).
      assert (Hgoal : Py.int_digits false 0 (String c rest) = Some n)
        by (rewrite Hplain; f_equal; lia).
      destruct c as [[] [] [] [] [] [] [] []]; try exact Hgoal;
        exfalso; [now apply Hplus | now apply Hminus].
    + exists lead, tail. rewrite Hg. now repeat split.
Qed.

(** ** The two phases on different contracts *)

Lemma update_blockchain_metrics_rows_ids (s : Store) (c : string)
    (h t ts : Z) :
  map Row.id (rows (update_blockchain_metrics s c h t ts))
  = map Row.id (rows s).
Proof.
  cbn [rows update_blockchain_metrics]. rewrite map_map. apply map_ext.
  intros r. now destruct (has_contract c r).
Qed.

Lemma max_id_ids (l l' : list Row.t) :
  map Row.id l = map Row.id l' -> max_id l = max_id l'.
Proof.
  revert l'. induction l as [|r l IH]; intros [|r' l'] H;
    try discriminate H; [reflexivity|].
  cbn in H. injection H as Hid Hl. cbn [max_id fold_right].
  fold (max_id l). fold (max_id l'). now rewrite Hid, (IH l' Hl).
Qed.

Lemma existsb_map_local {A B : Type} (f : B -> bool) (g : A -> B)
    (l : list A) :
  existsb f (map g l) = existsb (fun a => f (g a)) l.
Proof. induction l as [|a l IH]; [reflexivity|]. cbn. now rewrite IH. Qed.

Lemma existsb_ext_local {A : Type} (f g : A -> bool) (l : list A) :
  (forall a, f a = g a) -> existsb f l = existsb g l.
Proof.
  intros H. induction l as [|a l IH]; [reflexivity|]. cbn. now rewrite H, IH.
Qed.

Lemma execute_upsert_metrics_swap (E : Engine) (s : Store) (x : Coin.t)
    (c : string) (h t ts : Z) :
  Coin.contract x <> c ->
  execute_upsert E (update_blockchain_metrics s c h t ts) x
  = update_blockchain_metrics (execute_upsert E s x) c h t ts.
Proof.
  intros Hne. unfold execute_upsert.
  assert (Hnext : next_rowid (update_blockchain_metrics s c h t ts)
                  = next_rowid s).
  { unfold next_rowid. cbn [seq update_blockchain_metrics].
    f_equal. f_equal. apply max_id_ids.
    apply update_blockchain_metrics_rows_ids. }
  assert (Hex : existsb (has_contract (Coin.contract x))
                        (rows (update_blockchain_metrics s c h t ts))
                = existsb (has_contract (Coin.contract x)) (rows s)).
  { cbn [rows update_blockchain_metrics]. rewrite existsb_map_local.
    apply existsb_ext_local. intros r. unfold has_contract.
    now destruct (String.eqb (Row.contract r) c). }
  rewrite Hex, Hnext.
  destruct (existsb (has_contract (Coin.contract x)) (rows s)).
  - unfold update_blockchain_metrics. cbn [rows seq]. f_equal.
    rewrite !map_map. apply map_ext. intros r.
    destruct (has_contract c r) eqn:Hc,
             (has_contract (Coin.contract x) r) eqn:Hx;
      unfold has_contract in *; cbn [Row.contract set_metrics set_listing];
      rewrite ?Hc, ?Hx; try reflexivity.
    apply String.eqb_eq in Hc, Hx. congruence.
  - unfold update_blockchain_metrics. cbn [rows seq]. f_equal.
    rewrite map_app. f_equal. cbn [map]. unfold has_contract.
    cbn [inserted_row Row.contract].
    apply String.eqb_neq in Hne. now rewrite Hne.
Qed.

(** X18: a listing batch and a metrics write for a contract the batch does
    not list can be done in either order: the stores are equal. *)
Theorem phases_commute_on_other_contracts (E : Engine) (s : Store)
    (batch : list Coin.t) (c : string) (h t ts : Z) :
  ~ In c (map Coin.contract batch) ->
  update_coin_data E (update_blockchain_metrics s c h t ts) batch
  = update_blockchain_metrics (update_coin_data E s batch) c h t ts.
Proof.
  revert s. induction batch as [|x batch IH]; intros s Hout; [reflexivity|].
  cbn [update_coin_data fold_left].
  rewrite execute_upsert_metrics_swap
    by (intros Heq; apply Hout; now left).
  apply IH. intros Hin. apply Hout. now right.
Qed.

Lemma phases_commute_on_other_contracts_witness :
  update_coin_data rowid_engine
    (update_blockchain_metrics Sample.listed "0xAAA" 500 42 2000)
    [Sample.pepe]
  = update_blockchain_metrics
      (update_coin_data rowid_engine Sample.listed [Sample.pepe])
      "0xAAA" 500 42 2000.
Proof.
  apply (phases_commute_on_other_contracts rowid_engine Sample.listed
           [Sample.pepe] "0xAAA" 500 42 2000).
  cbn. intros [H|[]]. discriminate H.
Defined.

(** ** What the bot is shown *)

(** X19: a record that [search_coin] returns from a table the scheduler
    keeps is made of one stored row; its price and its [last_updated] are
    not None, its contract starts with 0x, and its [holders] and
    [transfers_24h] are None together. *)
Theorem lookup_on_scheduled_table (E : Engine) (page : Fetched) (now : Z)
    (w : World) (jobs : list Job) (q : string) (v : CoinRecord.t) :
  search_coin E (main E None page now w jobs) q = Some v ->
  (exists r, In r (rows (main E None page now w jobs))
             /\ v = select_columns r /\ where_clause q r = true)
  /\ CoinRecord.price v <> None
  /\ CoinRecord.last_updated v <> None
  /\ Text.startswith "0x" (CoinRecord.contract v) = true
  /\ (CoinRecord.holders v = None <-> CoinRecord.transfers_24h v = None).
Proof.
  intros Hv. apply search_coin_some in Hv.
  destruct Hv as [pre [r [post (Hscan & -> & Hm & _)]]].
  assert (Hr : In r (rows (main E None page now w jobs))).
  { apply (Permutation_in r (scan_search_perm E _)).
    rewrite Hscan. apply in_or_app. right. now left. }
  assert (Hc : consistent (main E None page now w jobs)).
  { apply scheduler_thread_consistent. apply empty_consistent. }
  destruct Hc as (_ & _ & Hok). rewrite Forall_forall in Hok.
  destruct (Hok r Hr) as (H0x & [p [Hp _]] & Hl & Hmet).
  split; [now exists r|]. cbn. repeat split; try assumption; try apply Hmet.
  rewrite Hp. discriminate.
Qed.

Lemma lookup_on_scheduled_table_witness :
  exists v,
    search_coin rowid_engine
      (main rowid_engine None Listing.page 1000 Sample.holders_down [])
      "pepe" = Some v
    /\ (exists r,
          In r (rows (main rowid_engine None Listing.page 1000
                        Sample.holders_down []))
          /\ v = select_columns r /\ where_clause "pepe" r = true)
    /\ CoinRecord.price v <> None
    /\ CoinRecord.last_updated v <> None
    /\ Text.startswith "0x" (CoinRecord.contract v) = true
    /\ (CoinRecord.holders v = None <-> CoinRecord.transfers_24h v = None).
Proof.
  eexists. split; [reflexivity|].
  apply (lookup_on_scheduled_table rowid_engine Listing.page 1000
           Sample.holders_down [] "pepe").
  reflexivity.
Defined.
